(** * flat2elisa: flat text files to an ELISA LRLP corpus

    A shallow embedding of [steps/flat2elisa.py] and the properties of its
    offset bookkeeping, file-name parsing, input resolution and output.

    Python 3 strings are sequences of Unicode code points; they are modelled
    as lists of integers, so that [len] counts code points and the UTF-8
    encoding (used only for the MD5 digest) is a separate function to bytes. *)

From Stdlib Require Import String Ascii DecimalString DecimalPos DecimalZ.
From Stdlib Require Import ZArith List Bool Lia.
Import ListNotations.
#[local] Set Warnings "-register-all".
Local Open Scope Z_scope.

(** ** Python strings *)

Module PyStr.

Definition pystr := list Z.

(** An ASCII literal as a Python string. *)
Definition lit (s : string) : pystr :=
  map (fun a => Z.of_N (N_of_ascii a)) (list_ascii_of_string s).
Arguments lit s%_string.

Definition len (s : pystr) : Z := Z.of_nat (length s).

Fixpoint pystr_eqb (s t : pystr) : bool :=
  match s, t with
  | [], [] => true
  | c :: s', d :: t' => (c =? d) && pystr_eqb s' t'
  | _, _ => false
  end.

(** [str.isspace] for one code point (the set CPython uses for [strip]). *)
Definition isspace (c : Z) : bool :=
  ((0x9 <=? c) && (c <=? 0xD)) || ((0x1C <=? c) && (c <=? 0x20))
  || (c =? 0x85) || (c =? 0xA0) || (c =? 0x1680)
  || ((0x2000 <=? c) && (c <=? 0x200A))
  || (c =? 0x2028) || (c =? 0x2029) || (c =? 0x202F) || (c =? 0x205F)
  || (c =? 0x3000).

Fixpoint lstrip (s : pystr) : pystr :=
  match s with
  | [] => []
  | c :: s' => if isspace c then lstrip s' else s
  end.

Definition rstrip (s : pystr) : pystr := rev (lstrip (rev s)).

(** [line.strip()] *)
Definition strip (s : pystr) : pystr := rstrip (lstrip s).

(** [s.split(sep)] for a one-character separator: never the empty list. *)
Fixpoint split (sep : Z) (s : pystr) : list pystr :=
  match s with
  | [] => [[]]
  | c :: s' =>
      if c =? sep then [] :: split sep s'
      else match split sep s' with
           | [] => [[c]]
           | t :: ts => (c :: t) :: ts
           end
  end.

(** [str(n)] for an integer. *)
Definition str_int (n : Z) : pystr := lit (NilZero.string_of_int (Z.to_int n)).

Definition slash : Z := 47.
Definition dot : Z := 46.
Definition underscore : Z := 95.

(** [os.path.basename] (posixpath): what follows the last slash. *)
Definition basename (p : pystr) : pystr := last (split slash p) [].

(** [os.path.join(a, b)] (posixpath, two arguments). *)
Definition join (a b : pystr) : pystr :=
  match b with
  | c :: _ => if c =? slash then b
              else match a with
                   | [] => b
                   | _ => if last a 0 =? slash then a ++ b
                          else a ++ slash :: b
                   end
  | [] => match a with
          | [] => []
          | _ => if last a 0 =? slash then a else a ++ [slash]
          end
  end.

(** [s.encode('utf-8')]: [None] stands for [UnicodeEncodeError], raised on
    surrogate code points. *)
Definition utf8_char (c : Z) : option (list Z) :=
  if c <? 0 then None
  else if c <? 0x80 then Some [c]
  else if c <? 0x800 then
    Some [Z.lor 0xC0 (Z.shiftr c 6); Z.lor 0x80 (Z.land c 0x3F)]
  else if c <? 0x10000 then
    if (0xD800 <=? c) && (c <=? 0xDFFF) then None
    else Some [Z.lor 0xE0 (Z.shiftr c 12);
               Z.lor 0x80 (Z.land (Z.shiftr c 6) 0x3F);
               Z.lor 0x80 (Z.land c 0x3F)]
  else if c <? 0x110000 then
    Some [Z.lor 0xF0 (Z.shiftr c 18);
          Z.lor 0x80 (Z.land (Z.shiftr c 12) 0x3F);
          Z.lor 0x80 (Z.land (Z.shiftr c 6) 0x3F);
          Z.lor 0x80 (Z.land c 0x3F)]
  else None.

Fixpoint encode_utf8 (s : pystr) : option (list Z) :=
  match s with
  | [] => Some []
  | c :: s' =>
      match utf8_char c, encode_utf8 s' with
      | Some bs, Some rest => Some (bs ++ rest)
      | _, _ => None
      end
  end.

End PyStr.
Export PyStr.

(** ** hashlib.md5 (RFC 1321) over a list of bytes *)

Module MD5.

Definition mask32 : Z := 0xFFFFFFFF.
Definition add32 (x y : Z) : Z := Z.land (x + y) mask32.
Definition not32 (x : Z) : Z := Z.lxor x mask32.
Definition rotl32 (x : Z) (n : Z) : Z :=
  Z.land (Z.lor (Z.shiftl x n) (Z.shiftr x (32 - n))) mask32.

Definition K : list Z :=
  [0xd76aa478; 0xe8c7b756; 0x242070db; 0xc1bdceee;
   0xf57c0faf; 0x4787c62a; 0xa8304613; 0xfd469501;
   0x698098d8; 0x8b44f7af; 0xffff5bb1; 0x895cd7be;
   0x6b901122; 0xfd987193; 0xa679438e; 0x49b40821;
   0xf61e2562; 0xc040b340; 0x265e5a51; 0xe9b6c7aa;
   0xd62f105d; 0x02441453; 0xd8a1e681; 0xe7d3fbc8;
   0x21e1cde6; 0xc33707d6; 0xf4d50d87; 0x455a14ed;
   0xa9e3e905; 0xfcefa3f8; 0x676f02d9; 0x8d2a4c8a;
   0xfffa3942; 0x8771f681; 0x6d9d6122; 0xfde5380c;
   0xa4beea44; 0x4bdecfa9; 0xf6bb4b60; 0xbebfbc70;
   0x289b7ec6; 0xeaa127fa; 0xd4ef3085; 0x04881d05;
   0xd9d4d039; 0xe6db99e5; 0x1fa27cf8; 0xc4ac5665;
   0xf4292244; 0x432aff97; 0xab9423a7; 0xfc93a039;
   0x655b59c3; 0x8f0ccc92; 0xffeff47d; 0x85845dd1;
   0x6fa87e4f; 0xfe2ce6e0; 0xa3014314; 0x4e0811a1;
   0xf7537e82; 0xbd3af235; 0x2ad7d2bb; 0xeb86d391].

Definition shifts : list Z :=
  [7; 12; 17; 22; 7; 12; 17; 22; 7; 12; 17; 22; 7; 12; 17; 22;
   5; 9; 14; 20; 5; 9; 14; 20; 5; 9; 14; 20; 5; 9; 14; 20;
   4; 11; 16; 23; 4; 11; 16; 23; 4; 11; 16; 23; 4; 11; 16; 23;
   6; 10; 15; 21; 6; 10; 15; 21; 6; 10; 15; 21; 6; 10; 15; 21].

Record state := mkState { sA : Z; sB : Z; sC : Z; sD : Z }.

Definition init : state :=
  mkState 0x67452301 0xefcdab89 0x98badcfe 0x10325476.

(** Little-endian words of a block of bytes. *)
Fixpoint words (bs : list Z) : list Z :=
  match bs with
  | b0 :: b1 :: b2 :: b3 :: rest =>
      (b0 + Z.shiftl b1 8 + Z.shiftl b2 16 + Z.shiftl b3 24) :: words rest
  | _ => []
  end.

Definition round (m : list Z) (st : state) (i : nat) : state :=
  let '(mkState a b c d) := st in
  let iz := Z.of_nat i in
  let '(f, g) :=
    if iz <? 16 then (Z.lor (Z.land b c) (Z.land (not32 b) d), iz)
    else if iz <? 32 then
      (Z.lor (Z.land d b) (Z.land (not32 d) c), (5 * iz + 1) mod 16)
    else if iz <? 48 then (Z.lxor b (Z.lxor c d), (3 * iz + 5) mod 16)
    else (Z.lxor c (Z.lor b (not32 d)), (7 * iz) mod 16) in
  let f' := add32 (add32 (add32 f a) (nth i K 0)) (nth (Z.to_nat g) m 0) in
  mkState d (add32 b (rotl32 f' (nth i shifts 0))) b c.

Definition block (st : state) (bs : list Z) : state :=
  let st' := fold_left (round (words bs)) (seq 0 64) st in
  mkState (add32 (sA st) (sA st')) (add32 (sB st) (sB st'))
          (add32 (sC st) (sC st')) (add32 (sD st) (sD st')).

Definition le_bytes (n : nat) (x : Z) : list Z :=
  map (fun k => Z.land (Z.shiftr x (8 * Z.of_nat k)) 0xFF) (seq 0 n).

(** Padding: a one bit, zeros up to 56 modulo 64, the bit length on 8 bytes. *)
Definition pad (msg : list Z) : list Z :=
  let n := Z.of_nat (length msg) in
  let zeros := Z.to_nat ((55 - n) mod 64) in
  msg ++ 0x80 :: repeat 0 zeros ++ le_bytes 8 (Z.land (8 * n) 0xFFFFFFFFFFFFFFFF).

Fixpoint blocks (fuel : nat) (st : state) (bs : list Z) : state :=
  match fuel, bs with
  | S fuel', _ :: _ => blocks fuel' (block st (firstn 64 bs)) (skipn 64 bs)
  | _, _ => st
  end.

Definition digest (msg : list Z) : list Z :=
  let p := pad msg in
  let st := blocks (length p) init p in
  le_bytes 4 (sA st) ++ le_bytes 4 (sB st) ++ le_bytes 4 (sC st)
    ++ le_bytes 4 (sD st).

Definition hexchar (n : Z) : Z := nth (Z.to_nat n) (lit "0123456789abcdef") 48.

Definition hex_byte (b : Z) : pystr :=
  [hexchar (Z.shiftr (Z.land b 0xFF) 4); hexchar (Z.land b 0xF)].

(** [hashlib.md5(bs).hexdigest()] *)
Definition hexdigest (msg : list Z) : pystr := flat_map hex_byte (digest msg).

End MD5.

(** ** lxml.etree: element trees and their serialisation

    Only what the program uses: [Element], [SubElement], [set], [.text] and
    [tostring(..., pretty_print=True, encoding='utf-8')]. *)

Module Lxml.

(** The [Char] production of XML 1.0. lxml refuses any other code point in
    an attribute value or a text with [ValueError]. *)
Definition xml_char (c : Z) : bool :=
  (c =? 0x9) || (c =? 0xA) || (c =? 0xD)
  || ((0x20 <=? c) && (c <=? 0xD7FF))
  || ((0xE000 <=? c) && (c <=? 0xFFFD))
  || ((0x10000 <=? c) && (c <=? 0x10FFFF)).

Definition xml_compatible (s : pystr) : bool := forallb xml_char s.

(** The value as lxml stores it; [None] stands for the [ValueError]. *)
Definition checked (s : pystr) : option pystr :=
  if xml_compatible s then Some s else None.

Inductive element :=
| Element (tag : pystr) (attrib : list (pystr * pystr)) (text : option pystr)
          (children : list element).

Definition tag_of (e : element) : pystr :=
  match e with Element t _ _ _ => t end.
Definition attrib_of (e : element) : list (pystr * pystr) :=
  match e with Element _ a _ _ => a end.
Definition text_of (e : element) : option pystr :=
  match e with Element _ _ t _ => t end.
Definition children_of (e : element) : list element :=
  match e with Element _ _ _ k => k end.

(** [e.get(key)] *)
Fixpoint get (attrs : list (pystr * pystr)) (key : pystr) : option pystr :=
  match attrs with
  | [] => None
  | (k, v) :: rest => if pystr_eqb k key then Some v else get rest key
  end.

Definition nl : Z := 10.
Definition dquote : Z := 34.

(** Escaping of a text node on output. *)
Definition escape_text_char (c : Z) : pystr :=
  if c =? 60 then lit "&lt;"
  else if c =? 62 then lit "&gt;"
  else if c =? 38 then lit "&amp;"
  else if c =? 13 then lit "&#13;"
  else [c].

Definition escape_text (s : pystr) : pystr := flat_map escape_text_char s.

(** Escaping of an attribute value on output. *)
Definition escape_attr_char (c : Z) : pystr :=
  if c =? 10 then lit "&#10;"
  else if c =? 13 then lit "&#13;"
  else if c =? 9 then lit "&#9;"
  else if c =? dquote then lit "&quot;"
  else if c =? 60 then lit "&lt;"
  else if c =? 62 then lit "&gt;"
  else if c =? 38 then lit "&amp;"
  else [c].

Definition escape_attr (s : pystr) : pystr := flat_map escape_attr_char s.

Definition dump_attr (kv : pystr * pystr) : pystr :=
  32 :: fst kv ++ lit "=" ++ dquote :: escape_attr (snd kv) ++ [dquote].

Definition indent (level : nat) : pystr := repeat 32 (2 * level).

(** Serialisation of one element; [fmt] is the pretty-printing flag, which
    is switched off below an element that has a text. *)
Fixpoint dump (fmt : bool) (level : nat) (e : element) : pystr :=
  match e with
  | Element tag attrs text kids =>
      let head := lit "<" ++ tag ++ flat_map dump_attr attrs in
      match text, kids with
      | None, [] => head ++ lit "/>"
      | _, _ =>
          let fmt' := fmt && match text with None => true | Some _ => false end in
          let sep := if fmt' then [nl] else [] in
          head ++ lit ">"
            ++ match text with Some t => escape_text t | None => [] end
            ++ sep
            ++ concat (map (fun k =>
                              (if fmt' then indent (S level) else [])
                                ++ dump fmt' (S level) k ++ sep) kids)
            ++ (if fmt' then indent level else [])
            ++ lit "</" ++ tag ++ lit ">"
      end
  end.

(** [ET.tostring(e, pretty_print=True, encoding='utf-8',
    xml_declaration=False).decode('utf-8')] *)
Definition tostring (e : element) : pystr := dump true 0 e ++ [nl].

End Lxml.
Export Lxml.

(** ** The program *)

(** *** Environment: streams, command line, file system *)

Inductive stream := Stdout | Stderr | Outfile.

Definition stream_eqb (s t : stream) : bool :=
  match s, t with
  | Stdout, Stdout | Stderr, Stderr | Outfile, Outfile => true
  | _, _ => false
  end.

(** One call of [write] (or [print]) on a text stream. *)
Definition event := (stream * pystr)%type.

(** Everything written on a stream, in order. *)
Definition written (s : stream) (t : list event) : pystr :=
  concat (map snd (filter (fun e => stream_eqb (fst e) s) t)).

(** The parsed command line. [outfile = None] is the default, [sys.stdout]. *)
Record args := mkArgs {
  debug : bool;
  infiles : list pystr;
  outfile : option pystr;
  direction : pystr;
  language : pystr
}.

(** The stream that the [outfile.write] calls are made on: the standard
    output by default, the file given with [--outfile] otherwise. What is
    recorded is the text handed to [write]. The bytes that reach a file are
    another matter: [prepfile(args.outfile, 'w')] wraps a file whose name
    ends in [.gz] in [gzip.open], and a gzip stream depends on more than the
    text (see [output_stream] below). *)
Definition sink (a : args) : stream :=
  match outfile a with None => Stdout | Some _ => Outfile end.

(** What iterating over [prepfile(infile, 'r')] does: it yields lines, then
    either stops or raises (a decoding error, a read error; with no line at
    all, a failure to open). *)
Record reading := mkReading { yielded : list pystr; raises : bool }.

(** What a path is: nothing; a regular file, with what reading it gives; a
    directory, with its listing; or anything else that exists and that
    [os.listdir] raises on (a device, a socket, a directory that cannot be
    read). *)
Inductive node :=
| Missing
| Regular (r : reading)
| Directory (names : list pystr)
| Special.

Definition filesystem := pystr -> node.

Section Program.

Variable fs : filesystem.

(** [os.path.exists] *)
Definition path_exists (p : pystr) : bool :=
  match fs p with Missing => false | _ => true end.

(** [os.path.isfile] *)
Definition isfile (p : pystr) : bool :=
  match fs p with Regular _ => true | _ => false end.

(** [os.listdir]; [None] stands for [NotADirectoryError]. *)
Definition listdir (p : pystr) : option (list pystr) :=
  match fs p with Directory names => Some names | _ => None end.

(** Iterating over [prepfile(p, 'r')]. *)
Definition prepfile_r (p : pystr) : reading :=
  match fs p with Regular r => r | _ => mkReading [] true end.

(** *** Lines 82-94: the list of input files *)

(** The inner loop over [os.listdir(entry)]. *)
Fixpoint listdir_loop (entry : pystr) (names : list pystr)
    (infilenames : list pystr) : list pystr :=
  match names with
  | [] => infilenames
  | filename :: rest =>
      let file := join entry filename in
      listdir_loop entry rest
        (if isfile file then infilenames ++ [file] else infilenames)
  end.

Definition not_found (entry : pystr) : event :=
  (Stderr, entry ++ lit " not found; skipping" ++ [nl]).

(** The loop over [args.infiles], threading [infilenames] and what was
    written; [None] stands for an exception that nothing catches. *)
Fixpoint resolve (entries : list pystr) (infilenames : list pystr)
    (trace : list event) : option (list pystr * list event) :=
  match entries with
  | [] => Some (infilenames, trace)
  | entry :: rest =>
      if negb (path_exists entry) then
        resolve rest infilenames (trace ++ [not_found entry])
      else if isfile entry then
        resolve rest (infilenames ++ [entry]) trace
      else
        match listdir entry with
        | None => None
        | Some names =>
            resolve rest (listdir_loop entry names infilenames) trace
        end
  end.

(** *** Lines 111-134: the segments of one file *)

Definition fullidfields : list pystr :=
  [lit "SOURCE_LANGUAGE"; lit "GENRE"; lit "PROVENANCE"; lit "DATE";
   lit "INDEX_ID"].

(** [ET.SubElement(xroot, key)] followed by [se.text = text]. *)
Definition subelement (kt : pystr * pystr) : option element :=
  match checked (snd kt) with
  | Some t => Some (Element (fst kt) [] (Some t) [])
  | None => None
  end.

Fixpoint subelements_of (kts : list (pystr * pystr)) : option (list element) :=
  match kts with
  | [] => Some []
  | kt :: rest =>
      match subelement kt with
      | None => None
      | Some e =>
          match subelements_of rest with
          | None => None
          | Some es => Some (e :: es)
          end
      end
  end.

(** The body of the loop for one stripped line: the tree under [segroot],
    or [None] when a statement of the body raises. *)
Definition segment (fullid infile : pystr) (ln : nat) (line : pystr)
    (currstart currend : Z) : option element :=
  match checked (fullid ++ lit "." ++ str_int (Z.of_nat ln)) with
  | None => None
  | Some id =>
  match checked (str_int currstart) with
  | None => None
  | Some sc =>
  match checked (str_int currend) with
  | None => None
  | Some ec =>
  match encode_utf8 line with
  | None => None
  | Some bytes =>
      let subelements :=
        [(lit "FULL_ID_SOURCE", fullid);
         (lit "ORIG_SEG_ID", lit "segment-" ++ str_int (Z.of_nat ln));
         (lit "ORIG_FILENAME", basename infile);
         (lit "MD5_HASH_SOURCE", MD5.hexdigest bytes);
         (lit "ORIG_RAW_SOURCE", line)] in
      match subelements_of subelements with
      | None => None
      | Some kids =>
          Some (Element (lit "SEGMENT") [] None
                  [Element (lit "SOURCE")
                     [(lit "id", id); (lit "start_char", sc);
                      (lit "end_char", ec)]
                     None kids])
      end
  end end end end.

(** The [for ln, line in enumerate(...)] loop from line number [ln] with the
    cursor at [currstart]: the trees serialised so far and whether the loop
    was left by an exception. [raised] tells how the iterator ends. *)
Fixpoint process_lines (fullid infile : pystr) (ln : nat) (currstart : Z)
    (lines : list pystr) (raised : bool) : list element * bool :=
  match lines with
  | [] => ([], raised)
  | raw :: rest =>
      let line := strip raw in
      let currend := currstart + len line - 1 in
      match segment fullid infile ln line currstart currend with
      | None => ([], true)
      | Some segroot =>
          let '(done, problem) :=
            process_lines fullid infile (S ln) (currend + 2) rest raised in
          (segroot :: done, problem)
      end
  end.

(** *** Lines 98-138: one input file *)

Variable a : args.

Definition fullid_of (infile : pystr) : pystr :=
  nth 0 (split dot (basename infile)) [].

Definition idtoks_of (infile : pystr) : list pystr :=
  split underscore (fullid_of infile).

Definition bad_name (infile : pystr) : event :=
  (Stderr, infile ++ lit " is not in proper naming convention; skipping" ++ [nl]).

Definition had_a_problem (infile : pystr) : event :=
  (Stderr, infile ++ lit " had a problem." ++ [nl]).

Definition document_open (fullid : pystr) : event :=
  (sink a, lit "<DOCUMENT id=" ++ dquote :: fullid ++ dquote :: lit ">" ++ [nl]).

Definition field (lv : pystr * pystr) : event :=
  (sink a, lit "  <" ++ fst lv ++ lit ">" ++ snd lv ++ lit "</" ++ fst lv
             ++ lit ">" ++ [nl]).

Definition direction_line : event :=
  (sink a, lit "  <DIRECTION>" ++ direction a ++ lit "</DIRECTION>" ++ [nl]).

Definition document_close : event := (sink a, lit "</DOCUMENT>" ++ [nl]).

(** One iteration of the loop over [infilenames]. *)
Definition document (infile : pystr) : list event :=
  let fullid := fullid_of infile in
  let idtoks := idtoks_of infile in
  if negb (length idtoks =? length fullidfields)%nat then [bad_name infile]
  else
    let r := prepfile_r infile in
    let '(done, problem) :=
      process_lines fullid infile 0 0 (yielded r) (raises r) in
    document_open fullid
      :: map field (combine fullidfields idtoks)
      ++ direction_line
      :: map (fun e => (sink a, tostring e)) done
      ++ (if problem then [had_a_problem infile] else [])
      ++ [document_close].

Fixpoint documents (infilenames : list pystr) : list event :=
  match infilenames with
  | [] => []
  | infile :: rest => document infile ++ documents rest
  end.

(** *** The whole run *)

Definition prologue : list event :=
  [(sink a, lit "<?xml version=" ++ dquote :: lit "1.0" ++ dquote
              :: lit " encoding=" ++ dquote :: lit "UTF-8" ++ dquote
              :: lit "?>" ++ [nl]);
   (sink a, lit "<!DOCTYPE ELISA_LRLP_CORPUS SYSTEM " ++ dquote
              :: lit "elisa.lrlp.v1.1.dtd" ++ dquote :: lit ">" ++ [nl]);
   (sink a, lit "<ELISA_LRLP_CORPUS source_language=" ++ dquote
              :: language a ++ dquote :: lit ">" ++ [nl])].

Definition epilogue : list event :=
  [(sink a, lit "</ELISA_LRLP_CORPUS>" ++ [nl])].

(** [main()] after the command line is parsed. [workdir] is the directory
    that [tempfile.mkdtemp] made, whose name the program does not choose.
    The result is everything written, in order; [None] stands for a run that
    an uncaught exception of [os.listdir] ends. The calls of [write] and
    [print] themselves are taken to succeed: a stream whose encoding cannot
    encode a text (a lone surrogate in a name, outside any [try] at lines
    95-110 and 138-139) is a failure of the environment that this function
    does not describe. *)
Definition main (workdir : pystr) : option (list event) :=
  let shown := if debug a then [(Stdout, workdir ++ [nl])] else [] in
  match resolve (infiles a) [] [] with
  | None => None
  | Some (infilenames, warnings) =>
      Some (shown ++ warnings ++ prologue ++ documents infilenames ++ epilogue)
  end.

End Program.

(** * Definitions used to state the properties *)

(** Joining the tokens with the separator gives the string back. *)
Fixpoint join_with (sep : Z) (toks : list pystr) : pystr :=
  match toks with
  | [] => []
  | [t] => t
  | t :: ts => t ++ sep :: join_with sep ts
  end.

(** The files that one path of the command line stands for: nothing for a
    path that does not exist, the path itself for a regular file, and for a
    directory the regular files among its entries, in listing order. *)
Definition contributed (fs : filesystem) (entry : pystr) : list pystr :=
  match fs entry with
  | Missing => []
  | Regular _ => [entry]
  | Directory names => filter (isfile fs) (map (join entry) names)
  | Special => []
  end.

Definition is_missing (fs : filesystem) (entry : pystr) : bool :=
  negb (path_exists fs entry).

(** A path that is missing, a regular file or a directory. *)
Definition resolvable (fs : filesystem) (entry : pystr) : bool :=
  match fs entry with Special => false | _ => true end.

(** Printable ASCII other than the characters that XML output escapes. *)
Definition unreserved (c : Z) : bool :=
  (32 <=? c) && (c <=? 126)
  && negb ((c =? dquote) || (c =? 38) || (c =? 60) || (c =? 62)).

(** The tree of one segment, written out: a [SEGMENT] with one [SOURCE]
    child, its three attributes and its five children. *)
Definition segment_tree (fullid infile : pystr) (ln : nat) (line : pystr)
    (start_char end_char : Z) (md5 : pystr) : element :=
  Element (lit "SEGMENT") [] None
    [Element (lit "SOURCE")
       [(lit "id", fullid ++ lit "." ++ str_int (Z.of_nat ln));
        (lit "start_char", str_int start_char);
        (lit "end_char", str_int end_char)]
       None
       [Element (lit "FULL_ID_SOURCE") [] (Some fullid) [];
        Element (lit "ORIG_SEG_ID") []
          (Some (lit "segment-" ++ str_int (Z.of_nat ln))) [];
        Element (lit "ORIG_FILENAME") [] (Some (basename infile)) [];
        Element (lit "MD5_HASH_SOURCE") [] (Some md5) [];
        Element (lit "ORIG_RAW_SOURCE") [] (Some line) []]].

(** The cursor after one more line: its end, plus two. *)
Definition advance (currstart : Z) (raw : pystr) : Z :=
  currstart + len (strip raw) - 1 + 2.

(** The cursor of a file before its line [k]; it starts at 0. *)
Definition cursor (lines : list pystr) (k : nat) : Z :=
  fold_left advance (firstn k lines) 0.

(** The [SOURCE] child of a segment and its two offsets, as written. *)
Definition source_of (e : element) : option element :=
  match children_of e with
  | [src] => if pystr_eqb (tag_of src) (lit "SOURCE") then Some src else None
  | _ => None
  end.

Definition char_range (e : element) : option (pystr * pystr) :=
  match source_of e with
  | Some src =>
      match get (attrib_of src) (lit "start_char"),
            get (attrib_of src) (lit "end_char") with
      | Some s, Some t => Some (s, t)
      | _, _ => None
      end
  | None => None
  end.

(** The text of the child of a [SOURCE] with a given tag. *)
Fixpoint child_text (kids : list element) (tag : pystr) : option pystr :=
  match kids with
  | [] => None
  | k :: rest =>
      if pystr_eqb (tag_of k) tag then text_of k else child_text rest tag
  end.

Definition source_text (e : element) (tag : pystr) : option pystr :=
  match source_of e with
  | Some src => child_text (children_of src) tag
  | None => None
  end.

Definition lower_hex (c : Z) : bool :=
  ((48 <=? c) && (c <=? 57)) || ((97 <=? c) && (c <=? 102)).

(** The file of the spec's example and its two lines, as the iterator
    yields them. *)
Definition example_file : pystr := lit "eng_NW_abc123_20200101_00000001.txt".
Definition example_lines : list pystr :=
  [lit "Hello" ++ [nl]; lit "World" ++ [nl]].

(** The text of one segment, line by line. *)
Definition segment_text (fullid infile : pystr) (ln : nat) (line : pystr)
    (start_char end_char : Z) (md5 : pystr) : pystr :=
  lit "<SEGMENT>" ++ [nl]
  ++ lit "  <SOURCE id=" ++ [dquote]
  ++ escape_attr (fullid ++ lit "." ++ str_int (Z.of_nat ln)) ++ [dquote]
  ++ lit " start_char=" ++ [dquote] ++ str_int start_char ++ [dquote]
  ++ lit " end_char=" ++ [dquote] ++ str_int end_char ++ [dquote]
  ++ lit ">" ++ [nl]
  ++ lit "    <FULL_ID_SOURCE>" ++ escape_text fullid
  ++ lit "</FULL_ID_SOURCE>" ++ [nl]
  ++ lit "    <ORIG_SEG_ID>segment-" ++ str_int (Z.of_nat ln)
  ++ lit "</ORIG_SEG_ID>" ++ [nl]
  ++ lit "    <ORIG_FILENAME>" ++ escape_text (basename infile)
  ++ lit "</ORIG_FILENAME>" ++ [nl]
  ++ lit "    <MD5_HASH_SOURCE>" ++ md5 ++ lit "</MD5_HASH_SOURCE>" ++ [nl]
  ++ lit "    <ORIG_RAW_SOURCE>" ++ escape_text line
  ++ lit "</ORIG_RAW_SOURCE>" ++ [nl]
  ++ lit "  </SOURCE>" ++ [nl]
  ++ lit "</SEGMENT>" ++ [nl].

(** The text that one input file adds to the output, as a function of the
    direction, of the file's name and of what reading it gives. *)
Definition document_output (direction : pystr) (r : reading)
    (infile : pystr) : pystr :=
  let fullid := nth 0 (split dot (basename infile)) [] in
  let idtoks := split underscore fullid in
  if negb (length idtoks =? 5)%nat then []
  else
    (lit "<DOCUMENT id=" ++ dquote :: fullid ++ dquote :: lit ">" ++ [nl])
    ++ concat (map (fun lv => lit "  <" ++ fst lv ++ lit ">" ++ snd lv
                                ++ lit "</" ++ fst lv ++ lit ">" ++ [nl])
                 (combine fullidfields idtoks))
    ++ (lit "  <DIRECTION>" ++ direction ++ lit "</DIRECTION>" ++ [nl])
    ++ concat (map tostring
                 (fst (process_lines fullid infile 0 0 (yielded r) (raises r))))
    ++ (lit "</DOCUMENT>" ++ [nl]).

(** The text of the whole output, but for what [--debug] adds. *)
Definition corpus_output (language direction : pystr)
    (files : list (pystr * reading)) : pystr :=
  (lit "<?xml version=" ++ dquote :: lit "1.0" ++ dquote
     :: lit " encoding=" ++ dquote :: lit "UTF-8" ++ dquote
     :: lit "?>" ++ [nl])
  ++ (lit "<!DOCTYPE ELISA_LRLP_CORPUS SYSTEM " ++ dquote
        :: lit "elisa.lrlp.v1.1.dtd" ++ dquote :: lit ">" ++ [nl])
  ++ (lit "<ELISA_LRLP_CORPUS source_language=" ++ dquote
        :: language ++ dquote :: lit ">" ++ [nl])
  ++ concat (map (fun fr => document_output direction (snd fr) (fst fr)) files)
  ++ (lit "</ELISA_LRLP_CORPUS>" ++ [nl]).




(** A run with [--debug] and the default output: no input path exists. *)
Definition nothing : filesystem := fun _ => Missing.
Definition debug_args : args :=
  mkArgs true [lit "nope"] None (lit "fromsource") (lit "eng").

(** A file whose name holds an ampersand, with one line. *)
Definition amp_file : pystr := lit "a&b_NW_x_20200101_1.txt".
Definition amp_fs : filesystem :=
  fun p => if pystr_eqb p amp_file
           then Regular (mkReading [lit "x" ++ [nl]] false)
           else Missing.
Definition plain_args : args :=
  mkArgs false [amp_file] None (lit "fromsource") (lit "eng").

(** The file of the spec's example in a directory, beside a subdirectory. *)
Definition example_path : pystr := lit "data/eng_NW_abc123_20200101_00000001.txt".
Definition example_fs : filesystem :=
  fun p =>
    if pystr_eqb p example_path then Regular (mkReading example_lines false)
    else if pystr_eqb p (lit "data") then
      Directory [example_file; lit "sub"]
    else if pystr_eqb p (lit "data/sub") then Directory [lit "deep.txt"]
    else if pystr_eqb p (lit "data/sub/deep.txt") then
      Regular (mkReading [] false)
    else Missing.
Definition example_args : args :=
  mkArgs false [lit "nope"; example_path; lit "data"] None (lit "fromsource")
    (lit "eng").


(** ** Reading the output back

    What an XML parser makes of a serialised text or attribute value: it
    replaces the references that the serialiser writes, turns a raw carriage
    return (with the line feed after it, if any) into a line feed and, in an
    attribute value, raw white space into a space. *)

Definition entity (name : pystr) : Z :=
  if pystr_eqb name (lit "lt") then 60
  else if pystr_eqb name (lit "gt") then 62
  else if pystr_eqb name (lit "amp") then 38
  else if pystr_eqb name (lit "quot") then dquote
  else if pystr_eqb name (lit "#13") then 13
  else if pystr_eqb name (lit "#10") then 10
  else if pystr_eqb name (lit "#9") then 9
  else 0xFFFD.

Definition after_cr (rest : pystr) : pystr :=
  match rest with
  | c :: r => if c =? 10 then r else rest
  | [] => rest
  end.

Fixpoint unescape_from (attr : bool) (pending : option pystr) (fuel : nat)
    (s : pystr) : pystr :=
  match fuel with
  | O => []
  | S fuel' =>
      match s with
      | [] => []
      | c :: rest =>
          match pending with
          | Some name =>
              if c =? 59 then entity name :: unescape_from attr None fuel' rest
              else unescape_from attr (Some (name ++ [c])) fuel' rest
          | None =>
              if c =? 38 then unescape_from attr (Some []) fuel' rest
              else if c =? 13 then
                (if attr then 32 else 10)
                  :: unescape_from attr None fuel' (after_cr rest)
              else if attr && ((c =? 9) || (c =? 10)) then
                32 :: unescape_from attr None fuel' rest
              else c :: unescape_from attr None fuel' rest
          end
      end
  end.

(** The content of a text node, and the value of an attribute, read back. *)
Definition unescape_text (s : pystr) : pystr :=
  unescape_from false None (length s) s.
Definition unescape_attr (s : pystr) : pystr :=
  unescape_from true None (length s) s.

(** The number of code points of the stripped lines, all together. *)
Definition total_len (lines : list pystr) : Z :=
  fold_right (fun raw acc => len (strip raw) + acc) 0 lines.

(** ** Counting the documents in what was written *)

Fixpoint starts_with (prefix s : pystr) : bool :=
  match prefix, s with
  | [], _ => true
  | c :: prefix', d :: s' => (c =? d) && starts_with prefix' s'
  | _ :: _, [] => false
  end.

Definition opens_document (a : args) (e : event) : bool :=
  starts_with (lit "<DOCUMENT ") (snd e) && stream_eqb (fst e) (sink a).

Definition closes_document (a : args) (e : event) : bool :=
  starts_with (lit "</DOCUMENT>") (snd e) && stream_eqb (fst e) (sink a).

Definition valid_name (infile : pystr) : bool :=
  (length (idtoks_of infile) =? 5)%nat.

(** ** prepfile (lines 36-48)

    What [prepfile] returns, as a description of the stream: the file given
    or opened with [open], a [gzip.open] of its name, one of these under a
    [codecs] reader or writer, or no stream at all when it calls
    [sys.exit(1)]. *)

Inductive opened :=
| Builtin (name mode : pystr)
| Gzip (name mode : pystr)
| Reader (inner : opened)
| Writer (inner : opened)
| Exit1 (message : pystr).

(** The argument [fh]: a path, or a file that is already open. *)
Inductive fharg :=
| Path (p : pystr)
| OpenFile (name mode : pystr).

(** [s.endswith(suffix)] and [s.startswith(prefix)] *)
Definition endswith (s suffix : pystr) : bool :=
  starts_with (rev suffix) (rev s).
Definition startswith (s prefix : pystr) : bool := starts_with prefix s.

(** [python2] stands for [sys.version_info[0] == 2]. *)
Definition prepfile (python2 : bool) (fh : fharg) (code : pystr) : opened :=
  let fh :=
    match fh with
    | Path p => Builtin p code
    | OpenFile name mode => Builtin name mode
    end in
  let name := match fh with Builtin n _ => n | _ => [] end in
  let ret :=
    if endswith name (lit ".gz") then
      Gzip name (if endswith code (lit "t") then code else code ++ lit "t")
    else fh in
  if python2 then
    if startswith code (lit "r") then Reader fh
    else if startswith code (lit "w") then Writer fh
    else Exit1 (lit "I didn't understand code " ++ code ++ [nl])
  else ret.

(** Whether a stream decompresses what it reads or compresses what it
    writes. *)
Fixpoint through_gzip (o : opened) : bool :=
  match o with
  | Gzip _ _ => true
  | Reader i | Writer i => through_gzip i
  | Builtin _ _ | Exit1 _ => false
  end.

(** The [id] attribute of the [SOURCE] of a segment. *)
Definition segment_id (e : element) : option pystr :=
  match source_of e with
  | Some src => get (attrib_of src) (lit "id")
  | None => None
  end.

(** The three warnings of the program. *)
Definition is_warning (s : pystr) : Prop :=
  exists p,
    s = p ++ lit " not found; skipping" ++ [nl]
    \/ s = p ++ lit " is not in proper naming convention; skipping" ++ [nl]
    \/ s = p ++ lit " had a problem." ++ [nl].

(** The example file with a control character (U+0001) on its second line. *)
Definition control_fs : filesystem :=
  fun p =>
    if pystr_eqb p example_path then
      Regular (mkReading [lit "Hello" ++ [nl]; [1; nl]; lit "World" ++ [nl]]
                 false)
    else Missing.

(** ** The output stream behind the sink *)


(** ** The text of one document *)

(** The lines written for a file whose name has five tokens, with the
    texts of its segments in between. *)
Definition document_text (direction fullid : pystr) (idtoks : list pystr)
    (segments : list pystr) : pystr :=
  (lit "<DOCUMENT id=" ++ dquote :: fullid ++ dquote :: lit ">" ++ [nl])
  ++ concat (map (fun lv => lit "  <" ++ fst lv ++ lit ">" ++ snd lv
                              ++ lit "</" ++ fst lv ++ lit ">" ++ [nl])
               (combine [lit "SOURCE_LANGUAGE"; lit "GENRE"; lit "PROVENANCE";
                         lit "DATE"; lit "INDEX_ID"] idtoks))
  ++ (lit "  <DIRECTION>" ++ direction ++ lit "</DIRECTION>" ++ [nl])
  ++ concat segments
  ++ (lit "</DOCUMENT>" ++ [nl]).

(** ** References

    A condition that every well-formed document meets when it holds no
    comment, CDATA section or processing instruction other than the XML
    declaration: each ampersand starts a reference, that is, it is followed
    by name characters (or [#] and digits) up to a semicolon. *)

Definition reference_char (c : Z) : bool :=
  ((48 <=? c) && (c <=? 57)) || ((65 <=? c) && (c <=? 90))
  || ((97 <=? c) && (c <=? 122))
  || (c =? 35) || (c =? 45) || (c =? 46) || (c =? 58) || (c =? 95).

Fixpoint references_closed_from (inside : bool) (s : pystr) : bool :=
  match s with
  | [] => negb inside
  | c :: rest =>
      if inside then
        if c =? 59 then references_closed_from false rest
        else reference_char c && references_closed_from true rest
      else if c =? 38 then references_closed_from true rest
      else references_closed_from false rest
  end.

Definition references_closed (s : pystr) : bool :=
  references_closed_from false s.

(** A file with a name of two tokens beside the file whose name holds an
    ampersand. *)
Definition skip_fs : filesystem :=
  fun p => if pystr_eqb p (lit "notes.txt")
           then Regular (mkReading [lit "x" ++ [nl]] false)
           else amp_fs p.
Definition skip_args : args :=
  mkArgs false [lit "notes.txt"; amp_file] None (lit "fromsource") (lit "eng").

(** ** The bytes of the output

    What reaches the output for a text written on [sink]: its UTF-8 encoding,
    passed through gzip when [prepfile] has wrapped the file. The compressor
    is a parameter: all that matters here is that it is given the time of
    writing, which gzip stores, beside the data. [None] stands for a text
    that cannot be encoded. *)

Section Bytes.

Variable gzip_compress : Z -> list Z -> list Z.


End Bytes.

(** A path that exists and is neither a regular file nor a directory. *)
Definition device_fs : filesystem :=
  fun p => if pystr_eqb p (lit "/dev/null") then Special else example_fs p.
Definition device_args : args :=
  mkArgs false [example_path; lit "/dev/null"] None (lit "fromsource")
    (lit "eng").

(** * Properties *)

(** ** MD5 test vectors *)

Example md5_empty :
  MD5.hexdigest [] = lit "d41d8cd98f00b204e9800998ecf8427e".
Proof. vm_compute. reflexivity. Qed.

Example md5_abc :
  MD5.hexdigest (lit "abc") = lit "900150983cd24fb0d6963f7d28e17f72".
Proof. vm_compute. reflexivity. Qed.

Example md5_two_blocks :
  MD5.hexdigest (repeat 97 120) = lit "5f61c0ccad4cac44c75ff505e1f1e537".
Proof. vm_compute. reflexivity. Qed.

Example md5_pad_boundary :
  MD5.hexdigest (repeat 97 56) = lit "3b0c8ac703f828b04c6c197006d17218".
Proof. vm_compute. reflexivity. Qed.

Arguments written s t : simpl never.

(** ** Streams *)

Lemma written_app (s : stream) (t u : list event) :
  written s (t ++ u) = written s t ++ written s u.
Proof.
  unfold written. now rewrite filter_app, map_app, concat_app.
Qed.

Lemma written_nil (s : stream) : written s [] = [].
Proof. reflexivity. Qed.

Lemma written_cons (s : stream) (e : event) (t : list event) :
  written s (e :: t)
  = (if stream_eqb (fst e) s then snd e else []) ++ written s t.
Proof.
  unfold written. simpl. now destruct (stream_eqb (fst e) s).
Qed.

Lemma stream_eqb_refl (s : stream) : stream_eqb s s = true.
Proof. now destruct s. Qed.

Lemma written_same (s : stream) {A} (g : A -> pystr) (l : list A) :
  written s (map (fun x => (s, g x)) l) = concat (map g l).
Proof.
  induction l as [|x l IH]; [reflexivity|].
  simpl map. rewrite written_cons. simpl fst. rewrite stream_eqb_refl.
  simpl. now rewrite IH.
Qed.

Lemma written_other (s s' : stream) {A} (g : A -> pystr) (l : list A) :
  stream_eqb s' s = false ->
  written s (map (fun x => (s', g x)) l) = [].
Proof.
  intros H. induction l as [|x l IH]; [reflexivity|].
  simpl map. rewrite written_cons. simpl fst. now rewrite H.
Qed.

Lemma sink_not_stderr (a : args) : stream_eqb (sink a) Stderr = false.
Proof. unfold sink. now destruct (outfile a). Qed.

Lemma stderr_not_sink (a : args) : stream_eqb Stderr (sink a) = false.
Proof. unfold sink. now destruct (outfile a). Qed.

(** ** Splitting *)

Lemma split_not_nil (sep : Z) (s : pystr) : split sep s <> [].
Proof.
  destruct s as [|c s]; simpl; [discriminate|].
  destruct (c =? sep); [discriminate|].
  destruct (split sep s); discriminate.
Qed.

(** There is one more token than there are separators. *)
Lemma split_length (sep : Z) (s : pystr) :
  length (split sep s) = S (count_occ Z.eq_dec s sep).
Proof.
  induction s as [|c s IH]; [reflexivity|].
  simpl. destruct (Z.eqb_spec c sep) as [->|Hne].
  - destruct (Z.eq_dec sep sep); [|contradiction]. simpl. now rewrite IH.
  - destruct (Z.eq_dec c sep); [contradiction|].
    destruct (split sep s) eqn:E; [now destruct (split_not_nil sep s)|].
    simpl in *. exact IH.
Qed.

(** The first token holds no separator, and the string is that token, alone
    or followed by a separator and the rest. *)
Lemma split_head (sep : Z) (s : pystr) :
  ~ In sep (nth 0 (split sep s) [])
  /\ (s = nth 0 (split sep s) []
      \/ exists rest, s = nth 0 (split sep s) [] ++ sep :: rest).
Proof.
  induction s as [|c s [IHn IHs]]; simpl.
  - split; [tauto | now left].
  - destruct (Z.eqb_spec c sep) as [->|Hne]; simpl.
    + split; [tauto | right; now exists s].
    + destruct (split sep s) as [|t ts] eqn:E;
        [now destruct (split_not_nil sep s)|].
      simpl in *. split.
      * intros [H|H]; [congruence | tauto].
      * destruct IHs as [->|[rest ->]]; [now left|].
        right. now exists rest.
Qed.

Lemma split_join (sep : Z) (s : pystr) : join_with sep (split sep s) = s.
Proof.
  induction s as [|c s IH]; [reflexivity|].
  simpl. destruct (c =? sep) eqn:E.
  - apply Z.eqb_eq in E. subst c.
    destruct (split sep s) eqn:E'; [now destruct (split_not_nil sep s)|].
    simpl in *. now rewrite IH.
  - destruct (split sep s) as [|t ts] eqn:E';
      [now destruct (split_not_nil sep s)|].
    destruct ts; simpl in *; now rewrite <- IH.
Qed.

(** ** Input resolution *)

Lemma listdir_loop_filter (fs : filesystem) (entry : pystr)
    (names acc : list pystr) :
  listdir_loop fs entry names acc
  = acc ++ filter (isfile fs) (map (join entry) names).
Proof.
  revert acc. induction names as [|n names IH]; intros acc; simpl.
  - now rewrite app_nil_r.
  - rewrite IH. destruct (isfile fs (join entry n)); [|reflexivity].
    now rewrite <- app_assoc.
Qed.

Lemma resolve_step (fs : filesystem) (entry : pystr) (rest acc : list pystr)
    (tr : list event) :
  resolvable fs entry = true ->
  resolve fs (entry :: rest) acc tr
  = resolve fs rest (acc ++ contributed fs entry)
      (tr ++ if is_missing fs entry then [not_found entry] else []).
Proof.
  unfold resolvable, contributed, is_missing. simpl.
  unfold path_exists, isfile, listdir.
  destruct (fs entry) eqn:E; simpl; intros H; try discriminate.
  - now rewrite app_nil_r.
  - now rewrite app_nil_r.
  - now rewrite listdir_loop_filter, app_nil_r.
Qed.

Lemma resolve_closed_form (fs : filesystem) (entries acc : list pystr)
    (tr : list event) :
  forallb (resolvable fs) entries = true ->
  resolve fs entries acc tr
  = Some (acc ++ flat_map (contributed fs) entries,
          tr ++ map not_found (filter (is_missing fs) entries)).
Proof.
  revert acc tr. induction entries as [|e entries IH]; intros acc tr H.
  - simpl. now rewrite !app_nil_r.
  - simpl in H. apply andb_prop in H as [He Hr].
    rewrite resolve_step by exact He. rewrite IH by exact Hr.
    simpl. rewrite <- !app_assoc.
    now destruct (is_missing fs e).
Qed.

Lemma resolve_some_resolvable (fs : filesystem) (entries acc : list pystr)
    (tr : list event) (res : list pystr * list event) :
  resolve fs entries acc tr = Some res ->
  forallb (resolvable fs) entries = true.
Proof.
  revert acc tr. induction entries as [|e entries IH]; intros acc tr H;
    [reflexivity|].
  simpl. destruct (resolvable fs e) eqn:He.
  - rewrite resolve_step in H by exact He. simpl. eauto.
  - exfalso. unfold resolvable in He. simpl in H.
    unfold path_exists, isfile, listdir in H.
    destruct (fs e); try discriminate.
Qed.

Lemma contributed_regular (fs : filesystem) (entry : pystr) :
  Forall (fun f => isfile fs f = true) (contributed fs entry).
Proof.
  unfold contributed. destruct (fs entry) eqn:E; try constructor.
  - unfold isfile. now rewrite E.
  - constructor.
  - apply Forall_forall. intros f Hf. now apply filter_In in Hf.
Qed.

(** ** Strings that lxml accepts and writes unchanged *)

Lemma xml_compatible_app (s t : pystr) :
  xml_compatible (s ++ t) = xml_compatible s && xml_compatible t.
Proof. apply forallb_app. Qed.

Lemma unreserved_xml_char (c : Z) : unreserved c = true -> xml_char c = true.
Proof.
  unfold unreserved, xml_char. intros H.
  apply andb_prop in H as [H _]. apply andb_prop in H as [H1 H2].
  apply Z.leb_le in H1, H2.
  replace ((0x20 <=? c) && (c <=? 0xD7FF)) with true.
  - now rewrite !orb_true_r.
  - symmetry. apply andb_true_intro. split; apply Z.leb_le; lia.
Qed.

Lemma unreserved_compatible (s : pystr) :
  forallb unreserved s = true -> xml_compatible s = true.
Proof.
  unfold xml_compatible. rewrite !forallb_forall.
  intros H c Hc. apply unreserved_xml_char. now apply H.
Qed.

Lemma unreserved_escape_text_char (c : Z) :
  unreserved c = true -> escape_text_char c = [c].
Proof.
  unfold unreserved, escape_text_char. intros H.
  apply andb_prop in H as [H N]. apply andb_prop in H as [H1 _].
  apply Z.leb_le in H1. apply negb_true_iff in N.
  apply orb_false_elim in N as [N N62]. apply orb_false_elim in N as [N N60].
  apply orb_false_elim in N as [_ N38].
  rewrite N60, N62, N38.
  destruct (Z.eqb_spec c 13); [lia | reflexivity].
Qed.

Lemma unreserved_escape_attr_char (c : Z) :
  unreserved c = true -> escape_attr_char c = [c].
Proof.
  unfold unreserved, escape_attr_char. intros H.
  apply andb_prop in H as [H N]. apply andb_prop in H as [H1 _].
  apply Z.leb_le in H1. apply negb_true_iff in N.
  apply orb_false_elim in N as [N N62]. apply orb_false_elim in N as [N N60].
  apply orb_false_elim in N as [N34 N38].
  rewrite N60, N62, N38, N34.
  destruct (Z.eqb_spec c 10); [lia|].
  destruct (Z.eqb_spec c 13); [lia|].
  destruct (Z.eqb_spec c 9); [lia | reflexivity].
Qed.

Lemma flat_map_singleton {A} (f : A -> list A) (l : list A) :
  (forall x, In x l -> f x = [x]) -> flat_map f l = l.
Proof.
  induction l as [|x l IH]; intros H; [reflexivity|].
  simpl. rewrite H by now left. simpl. f_equal. apply IH.
  intros y Hy. apply H. now right.
Qed.

Lemma unreserved_escape_text (s : pystr) :
  forallb unreserved s = true -> escape_text s = s.
Proof.
  rewrite forallb_forall. intros H. apply flat_map_singleton.
  intros c Hc. apply unreserved_escape_text_char. now apply H.
Qed.

Lemma unreserved_escape_attr (s : pystr) :
  forallb unreserved s = true -> escape_attr s = s.
Proof.
  rewrite forallb_forall. intros H. apply flat_map_singleton.
  intros c Hc. apply unreserved_escape_attr_char. now apply H.
Qed.

Lemma unreserved_uint (d : Decimal.uint) :
  forallb unreserved (lit (NilEmpty.string_of_uint d)) = true.
Proof. induction d; simpl; auto. Qed.

Lemma unreserved_str_int (n : Z) : forallb unreserved (str_int n) = true.
Proof.
  unfold str_int, NilZero.string_of_int, NilZero.string_of_uint.
  destruct (Z.to_int n) as [d|d]; destruct d;
    try reflexivity; simpl; try apply unreserved_uint.
Qed.

Lemma unreserved_hexchar (n : Z) : unreserved (MD5.hexchar n) = true.
Proof.
  unfold MD5.hexchar. generalize (Z.to_nat n). intros k.
  do 17 (destruct k as [|k]; [reflexivity|]). reflexivity.
Qed.

Lemma unreserved_hexdigest (bs : list Z) :
  forallb unreserved (MD5.hexdigest bs) = true.
Proof.
  unfold MD5.hexdigest. generalize (MD5.digest bs). intros l.
  induction l as [|b l IH]; [reflexivity|].
  simpl. now rewrite !unreserved_hexchar, IH.
Qed.

Lemma hexdigest_length (bs : list Z) : length (MD5.hexdigest bs) = 32%nat.
Proof.
  unfold MD5.hexdigest, MD5.digest.
  generalize (MD5.blocks (length (MD5.pad bs)) MD5.init (MD5.pad bs)).
  intros st. reflexivity.
Qed.

Ltac bools :=
  repeat match goal with
    | H : _ || _ = true |- _ => apply orb_prop in H; destruct H
    | H : _ && _ = true |- _ => apply andb_prop in H; destruct H
    | H : _ || _ = false |- _ => apply orb_false_elim in H; destruct H
    | H : negb _ = true |- _ => apply negb_true_iff in H
    | H : (_ =? _) = true |- _ => apply Z.eqb_eq in H
    | H : (_ =? _) = false |- _ => apply Z.eqb_neq in H
    | H : (_ <=? _) = true |- _ => apply Z.leb_le in H
    | H : (_ <=? _) = false |- _ => apply Z.leb_gt in H
    | H : (_ <? _) = true |- _ => apply Z.ltb_lt in H
    | H : (_ <? _) = false |- _ => apply Z.ltb_ge in H
    end.

Lemma xml_char_utf8 (c : Z) :
  xml_char c = true -> exists bs, utf8_char c = Some bs.
Proof.
  unfold xml_char, utf8_char. intros H.
  destruct (c <? 0) eqn:E0; [exfalso; bools; lia|].
  destruct (c <? 0x80); [eauto|].
  destruct (c <? 0x800); [eauto|].
  destruct (c <? 0x10000) eqn:E1.
  - destruct ((0xD800 <=? c) && (c <=? 0xDFFF)) eqn:S; [|eauto].
    exfalso; bools; lia.
  - destruct (c <? 0x110000) eqn:E2; [eauto|].
    exfalso; bools; lia.
Qed.

Lemma xml_compatible_encodes (s : pystr) :
  xml_compatible s = true -> exists bs, encode_utf8 s = Some bs.
Proof.
  induction s as [|c s IH]; simpl; intros H; [eauto|].
  apply andb_prop in H as [Hc Hs].
  destruct (xml_char_utf8 c Hc) as [bs ->].
  destruct (IH Hs) as [rest ->]. eauto.
Qed.

(** ** One segment *)

Lemma checked_some (s t : pystr) :
  checked s = Some t -> t = s /\ xml_compatible s = true.
Proof.
  unfold checked. destruct (xml_compatible s); [|discriminate].
  intros [= <-]. now split.
Qed.

Lemma checked_ok (s : pystr) : xml_compatible s = true -> checked s = Some s.
Proof. unfold checked. now intros ->. Qed.

Lemma segment_inv (fullid infile : pystr) (ln : nat) (line : pystr)
    (cs ce : Z) (e : element) :
  segment fullid infile ln line cs ce = Some e ->
  exists bytes,
    encode_utf8 line = Some bytes
    /\ e = segment_tree fullid infile ln line cs ce (MD5.hexdigest bytes)
    /\ xml_compatible fullid = true
    /\ xml_compatible (basename infile) = true
    /\ xml_compatible line = true.
Proof.
  unfold segment, segment_tree.
  cbn [subelements_of subelement fst snd].
  repeat match goal with
    | |- context [match checked ?s with _ => _ end] =>
        let E := fresh "E" in
        destruct (checked s) eqn:E; [|discriminate];
        apply checked_some in E; destruct E; subst
    | |- context [match encode_utf8 ?s with _ => _ end] =>
        destruct (encode_utf8 s) as [bytes|]; [|discriminate]
    | |- context [subelement _] => unfold subelement; cbn [fst snd]
    end.
  intros [= <-]. exists bytes. auto.
Qed.

Lemma segment_ok (fullid infile : pystr) (ln : nat) (line : pystr)
    (cs ce : Z) :
  xml_compatible fullid = true ->
  xml_compatible (basename infile) = true ->
  xml_compatible line = true ->
  exists bytes,
    encode_utf8 line = Some bytes
    /\ segment fullid infile ln line cs ce
       = Some (segment_tree fullid infile ln line cs ce (MD5.hexdigest bytes)).
Proof.
  intros Hf Hb Hl. destruct (xml_compatible_encodes line Hl) as [bytes Hbs].
  exists bytes. split; [exact Hbs|].
  assert (Hn : forall n, xml_compatible (str_int n) = true)
    by (intros n; apply unreserved_compatible, unreserved_str_int).
  unfold segment, segment_tree.
  cbn [subelements_of fst snd]. unfold subelement. cbn [fst snd].
  rewrite Hbs.
  rewrite (checked_ok (fullid ++ _))
    by (now rewrite !xml_compatible_app, Hf, Hn).
  rewrite !(checked_ok (str_int _)) by apply Hn.
  rewrite (checked_ok fullid) by exact Hf.
  rewrite (checked_ok (lit "segment-" ++ _))
    by (now rewrite xml_compatible_app, Hn).
  rewrite (checked_ok (basename infile)) by exact Hb.
  rewrite (checked_ok (MD5.hexdigest bytes))
    by apply unreserved_compatible, unreserved_hexdigest.
  now rewrite (checked_ok line) by exact Hl.
Qed.

(** ** The loop over the lines *)

Lemma process_lines_nth (fullid infile : pystr) (lines : list pystr) :
  forall (ln : nat) (c : Z) (raised : bool) (k : nat) (e : element),
    nth_error (fst (process_lines fullid infile ln c lines raised)) k = Some e ->
    exists raw,
      nth_error lines k = Some raw
      /\ segment fullid infile (ln + k) (strip raw)
           (fold_left advance (firstn k lines) c)
           (fold_left advance (firstn k lines) c + len (strip raw) - 1)
         = Some e.
Proof.
  induction lines as [|raw lines IH]; intros ln c raised k e H.
  - simpl in H. now destruct k.
  - simpl in H.
    destruct (segment fullid infile ln (strip raw) c (c + len (strip raw) - 1))
      as [segroot|] eqn:E.
    2:{ simpl in H. now destruct k. }
    destruct (process_lines fullid infile (S ln) (c + len (strip raw) - 1 + 2)
                lines raised) as [done problem] eqn:P.
    destruct k as [|k]; simpl in H.
    + injection H as <-. exists raw. simpl. rewrite Nat.add_0_r. now split.
    + specialize (IH (S ln) (c + len (strip raw) - 1 + 2) raised k e).
      rewrite P in IH. destruct (IH H) as [raw' [Hn Hs]].
      exists raw'. simpl. split; [exact Hn|].
      replace (ln + S k)%nat with (S ln + k)%nat by lia. exact Hs.
Qed.

Lemma process_lines_length (fullid infile : pystr) (lines : list pystr) :
  forall (ln : nat) (c : Z) (raised : bool),
    (length (fst (process_lines fullid infile ln c lines raised))
     <= length lines)%nat.
Proof.
  induction lines as [|raw lines IH]; intros ln c raised; simpl; [lia|].
  destruct (segment _ _ _ _ _ _); simpl; [|lia].
  specialize (IH (S ln) (c + len (strip raw) - 1 + 2) raised).
  destruct (process_lines _ _ _ _ _ _). simpl in *. lia.
Qed.

(** What was serialised is what the lines before the exception give. *)
Lemma process_lines_prefix (fullid infile : pystr) (lines : list pystr) :
  forall (ln : nat) (c : Z) (raised : bool),
    let done := fst (process_lines fullid infile ln c lines raised) in
    process_lines fullid infile ln c (firstn (length done) lines) false
    = (done, false).
Proof.
  induction lines as [|raw lines IH]; intros ln c raised; simpl;
    [reflexivity|].
  destruct (segment fullid infile ln (strip raw) c (c + len (strip raw) - 1))
    as [segroot|] eqn:E; simpl; [|reflexivity].
  specialize (IH (S ln) (c + len (strip raw) - 1 + 2) raised).
  destruct (process_lines fullid infile (S ln) _ lines raised)
    as [done problem] eqn:P.
  simpl in *. now rewrite E, IH.
Qed.


(** A problem without the iterator raising: the first line that was not
    serialised is one whose segment could not be built. *)
Lemma process_lines_problem (fullid infile : pystr) (lines : list pystr) :
  forall (ln : nat) (c : Z),
    let res := process_lines fullid infile ln c lines false in
    snd res = true ->
    exists raw,
      nth_error lines (length (fst res)) = Some raw
      /\ segment fullid infile (ln + length (fst res)) (strip raw)
           (fold_left advance (firstn (length (fst res)) lines) c)
           (fold_left advance (firstn (length (fst res)) lines) c
            + len (strip raw) - 1)
         = None.
Proof.
  induction lines as [|raw lines IH]; intros ln c; simpl; [discriminate|].
  destruct (segment fullid infile ln (strip raw) c (c + len (strip raw) - 1))
    as [segroot|] eqn:E; simpl.
  - specialize (IH (S ln) (c + len (strip raw) - 1 + 2)).
    destruct (process_lines fullid infile (S ln) _ lines false)
      as [done problem] eqn:P.
    simpl in *. intros H. destruct (IH H) as [raw' [Hn Hs]].
    exists raw'. split; [exact Hn|].
    replace (ln + S (length done))%nat with (S (ln + length done)) by lia.
    exact Hs.
  - intros _. exists raw. rewrite Nat.add_0_r. now split.
Qed.


(** ** The cursor *)

Lemma firstn_snoc {A} (l : list A) (k : nat) (x : A) :
  nth_error l k = Some x -> firstn (S k) l = firstn k l ++ [x].
Proof.
  revert k. induction l as [|y l IH]; intros k H.
  - now destruct k.
  - destruct k as [|k]; simpl in *.
    + now injection H as ->.
    + f_equal. now apply IH.
Qed.

Lemma cursor_next (lines : list pystr) (k : nat) (raw : pystr) :
  nth_error lines k = Some raw ->
  cursor lines (S k) = cursor lines k + len (strip raw) - 1 + 2.
Proof.
  intros H. unfold cursor. rewrite (firstn_snoc _ _ _ H).
  now rewrite fold_left_app.
Qed.

Lemma char_range_segment_tree (fullid infile : pystr) (ln : nat)
    (line : pystr) (cs ce : Z) (md5 : pystr) :
  char_range (segment_tree fullid infile ln line cs ce md5)
  = Some (str_int cs, str_int ce).
Proof. reflexivity. Qed.

Lemma strip_blank (raw : pystr) : forallb isspace raw = true -> strip raw = [].
Proof.
  intros H. unfold strip.
  replace (lstrip raw) with (@nil Z); [reflexivity|].
  induction raw as [|c raw IH]; [reflexivity|].
  simpl in *. apply andb_prop in H as [-> H]. now apply IH.
Qed.



(** ** The digest *)

Lemma lower_hex_hexchar (n : Z) : lower_hex (MD5.hexchar n) = true.
Proof.
  unfold MD5.hexchar. generalize (Z.to_nat n). intros k.
  do 17 (destruct k as [|k]; [reflexivity|]). reflexivity.
Qed.

Lemma lower_hex_hexdigest (bs : list Z) :
  forallb lower_hex (MD5.hexdigest bs) = true.
Proof.
  unfold MD5.hexdigest. generalize (MD5.digest bs). intros l.
  induction l as [|b l IH]; [reflexivity|].
  simpl. now rewrite !lower_hex_hexchar, IH.
Qed.

Lemma source_text_md5 (fullid infile : pystr) (ln : nat) (line : pystr)
    (cs ce : Z) (md5 : pystr) :
  source_text (segment_tree fullid infile ln line cs ce md5)
    (lit "MD5_HASH_SOURCE") = Some md5.
Proof. reflexivity. Qed.

(** C5, as the code has it. The text of [MD5_HASH_SOURCE] is the MD5 digest
    of the UTF-8 encoding of the stripped line, as 32 lowercase hexadecimal
    digits, which the serialisation writes unchanged; for the line Hello it
    is 8b1a9953c4611296a827abf8c47804d7. *)
Theorem md5_hash_source :
  (forall fullid infile ln line cs ce e,
     segment fullid infile ln line cs ce = Some e ->
     exists bytes,
       encode_utf8 line = Some bytes
       /\ source_text e (lit "MD5_HASH_SOURCE") = Some (MD5.hexdigest bytes)
       /\ length (MD5.hexdigest bytes) = 32%nat
       /\ forallb lower_hex (MD5.hexdigest bytes) = true
       /\ dump false 2
            (Element (lit "MD5_HASH_SOURCE") [] (Some (MD5.hexdigest bytes)) [])
          = lit "<MD5_HASH_SOURCE>" ++ MD5.hexdigest bytes
              ++ lit "</MD5_HASH_SOURCE>")
  /\ encode_utf8 (strip (lit "Hello" ++ [nl])) = Some (lit "Hello")
  /\ MD5.hexdigest (lit "Hello") = lit "8b1a9953c4611296a827abf8c47804d7"
  /\ map (fun e => source_text e (lit "MD5_HASH_SOURCE"))
       (fst (process_lines (nth 0 (split dot (basename example_file)) [])
               example_file 0 0 example_lines false))
     = [Some (lit "8b1a9953c4611296a827abf8c47804d7");
        Some (lit "f5a7924e621e84c9280a9a27e1bcb7f6")].
Proof.
  split.
  { intros fullid infile ln line cs ce e H.
    apply segment_inv in H. destruct H as [bytes [Hb [-> _]]].
    exists bytes. split; [exact Hb|].
    split; [apply source_text_md5|].
    split; [apply hexdigest_length|].
    split; [apply lower_hex_hexdigest|].
    cbn [dump flat_map andb map concat].
    rewrite (unreserved_escape_text _ (unreserved_hexdigest bytes)).
    generalize (MD5.hexdigest bytes). intros h.
    rewrite app_nil_r. cbn [app]. rewrite <- app_assoc. reflexivity. }
  repeat split; vm_compute; reflexivity.
Qed.

(** C5, as the claim words it, fails: the digest written for the line Hello
    has 32 digits and is not the 31-digit string of the claim. *)
Lemma hello_digest_not_as_claimed :
  map (fun e => source_text e (lit "MD5_HASH_SOURCE"))
    (fst (process_lines (nth 0 (split dot (basename example_file)) [])
            example_file 0 0 [lit "Hello" ++ [nl]] false))
  = [Some (lit "8b1a9953c4611296a827abf8c47804d7")]
  /\ lit "8b1a9953c4611296a827abf8c47804d7"
     <> lit "8b1a9953c4611296a827abf8c47804d"
  /\ ~ (forall e,
          In e (fst (process_lines (nth 0 (split dot (basename example_file)) [])
                      example_file 0 0 [lit "Hello" ++ [nl]] false)) ->
          source_text e (lit "MD5_HASH_SOURCE")
          = Some (lit "8b1a9953c4611296a827abf8c47804d")).
Proof.
  split; [vm_compute; reflexivity|].
  split.
  { intros H. apply (f_equal (@length Z)) in H. vm_compute in H.
    discriminate H. }
  intros H.
  assert (E : exists e,
             fst (process_lines (nth 0 (split dot (basename example_file)) [])
                    example_file 0 0 [lit "Hello" ++ [nl]] false) = [e]
             /\ source_text e (lit "MD5_HASH_SOURCE")
                = Some (lit "8b1a9953c4611296a827abf8c47804d7")).
  { vm_compute. eexists. split; reflexivity. }
  destruct E as [e [El Et]]. rewrite El in H.
  specialize (H e (or_introl eq_refl)). rewrite Et in H.
  injection H as H. apply (f_equal (@length Z)) in H.
  vm_compute in H. discriminate H.
Qed.

(** ** The text of a segment and of a document *)

Lemma escape_text_app (s t : pystr) :
  escape_text (s ++ t) = escape_text s ++ escape_text t.
Proof. apply flat_map_app. Qed.

Lemma escape_attr_app (s t : pystr) :
  escape_attr (s ++ t) = escape_attr s ++ escape_attr t.
Proof. apply flat_map_app. Qed.

Lemma tostring_segment_tree (fullid infile : pystr) (ln : nat) (line : pystr)
    (cs ce : Z) (md5 : pystr) :
  forallb unreserved md5 = true ->
  tostring (segment_tree fullid infile ln line cs ce md5)
  = segment_text fullid infile ln line cs ce md5.
Proof.
  intros Hm. unfold tostring, segment_tree, segment_text.
  cbn [dump flat_map andb map concat fst snd indent repeat Nat.mul Nat.add].
  unfold dump_attr. cbn [fst snd].
  rewrite !(unreserved_escape_attr (str_int _)) by apply unreserved_str_int.
  rewrite (unreserved_escape_text md5) by exact Hm.
  rewrite escape_text_app.
  rewrite (unreserved_escape_text (str_int _)) by apply unreserved_str_int.
  generalize (escape_attr (fullid ++ lit "." ++ str_int (Z.of_nat ln))).
  generalize (escape_text fullid) (escape_text (basename infile))
    (escape_text line) (str_int (Z.of_nat ln)) (str_int cs) (str_int ce).
  intros. simpl. repeat (rewrite <- !app_assoc; simpl). reflexivity.
Qed.

Lemma length_five {A} (l : list A) :
  length l = 5%nat -> exists a b c d e, l = [a; b; c; d; e].
Proof.
  destruct l as [|a [|b [|c [|d [|e [|f l]]]]]]; try discriminate.
  intros _. now exists a, b, c, d, e.
Qed.

(** The run of one file whose name has five tokens. *)
Lemma document_valid (fs : filesystem) (a : args) (infile : pystr) :
  length (idtoks_of infile) = 5%nat ->
  document fs a infile
  = document_open a (fullid_of infile)
      :: map (field a) (combine fullidfields (idtoks_of infile))
      ++ direction_line a
      :: map (fun e => (sink a, tostring e))
           (fst (process_lines (fullid_of infile) infile 0 0
                   (yielded (prepfile_r fs infile))
                   (raises (prepfile_r fs infile))))
      ++ (if snd (process_lines (fullid_of infile) infile 0 0
                    (yielded (prepfile_r fs infile))
                    (raises (prepfile_r fs infile)))
          then [had_a_problem infile] else [])
      ++ [document_close a].
Proof.
  intros H. unfold document. rewrite H. simpl negb. cbv iota.
  now destruct (process_lines _ _ _ _ _ _).
Qed.

Lemma document_invalid (fs : filesystem) (a : args) (infile : pystr) :
  length (idtoks_of infile) <> 5%nat ->
  document fs a infile = [bad_name infile].
Proof.
  intros H. unfold document.
  destruct (Nat.eqb_spec (length (idtoks_of infile)) (length fullidfields))
    as [E|E]; [now destruct H | reflexivity].
Qed.

Lemma documents_app (fs : filesystem) (a : args) (l1 l2 : list pystr) :
  documents fs a (l1 ++ l2) = documents fs a l1 ++ documents fs a l2.
Proof.
  induction l1 as [|f l1 IH]; [reflexivity|].
  simpl. now rewrite IH, app_assoc.
Qed.

(** ** File names *)

Lemma written_sink_bad_name (a : args) (infile : pystr) :
  written (sink a) [bad_name infile] = [].
Proof.
  rewrite written_cons, written_nil. simpl fst. now rewrite stderr_not_sink.
Qed.

(** ** The output as a function of the inputs *)

Lemma written_sink_one (a : args) (s : pystr) (t : list event) :
  written (sink a) ((sink a, s) :: t) = s ++ written (sink a) t.
Proof. rewrite written_cons. simpl. now rewrite stream_eqb_refl. Qed.

Lemma written_sink_problem (a : args) (b : bool) (infile : pystr) :
  written (sink a) (if b then [had_a_problem infile] else []) = [].
Proof.
  destruct b; [|reflexivity].
  rewrite written_cons, written_nil. simpl fst. now rewrite stderr_not_sink.
Qed.

Lemma written_document (fs : filesystem) (a : args) (infile : pystr) :
  written (sink a) (document fs a infile)
  = document_output (direction a) (prepfile_r fs infile) infile.
Proof.
  unfold document_output.
  destruct (Nat.eqb_spec (length (split underscore
                                    (nth 0 (split dot (basename infile)) [])))
              5) as [E|E].
  - rewrite (document_valid fs a infile E). simpl negb. cbv iota.
    unfold document_open, direction_line, document_close.
    rewrite written_sink_one, written_app. unfold field.
    rewrite (written_same (sink a)).
    rewrite written_sink_one, written_app.
    rewrite (written_same (sink a)).
    rewrite written_app, written_sink_problem, written_sink_one, written_nil.
    unfold idtoks_of, fullid_of. rewrite !app_nil_r. reflexivity.
  - rewrite (document_invalid fs a infile E). apply written_sink_bad_name.
Qed.

Lemma written_documents (fs : filesystem) (a : args) (l : list pystr) :
  written (sink a) (documents fs a l)
  = concat (map (fun f => document_output (direction a) (prepfile_r fs f) f) l).
Proof.
  induction l as [|f l IH]; [reflexivity|].
  simpl. now rewrite written_app, written_document, IH.
Qed.

Lemma written_sink_warnings (fs : filesystem) (a : args) (l : list pystr) :
  written (sink a) (map not_found l) = [].
Proof. unfold not_found. apply written_other, stderr_not_sink. Qed.

Lemma resolve_warnings (fs : filesystem) (entries l : list pystr)
    (tr : list event) :
  resolve fs entries [] [] = Some (l, tr) ->
  l = flat_map (contributed fs) entries
  /\ tr = map not_found (filter (is_missing fs) entries).
Proof.
  intros H. pose proof (resolve_some_resolvable _ _ _ _ _ H) as R.
  rewrite (resolve_closed_form fs entries [] [] R) in H.
  simpl in H. now injection H as <- <-.
Qed.

(** What a run writes on its output: the name of the working directory
    when [--debug] is set and the output is the standard output, then the
    corpus. *)
Lemma written_main (fs : filesystem) (a : args) (workdir : pystr)
    (l : list pystr) (tr : list event) :
  resolve fs (infiles a) [] [] = Some (l, tr) ->
  exists t,
    main fs a workdir = Some t
    /\ written (sink a) t
       = (if debug a && stream_eqb Stdout (sink a) then workdir ++ [nl] else [])
         ++ corpus_output (language a) (direction a)
              (map (fun f => (f, prepfile_r fs f)) l).
Proof.
  intros H. unfold main. rewrite H. eexists. split; [reflexivity|].
  destruct (resolve_warnings _ _ _ _ H) as [_ ->].
  rewrite !written_app, written_sink_warnings, written_documents
    by exact fs.
  unfold prologue, epilogue, corpus_output.
  rewrite !written_sink_one, written_nil. rewrite map_map. simpl.
  rewrite !app_nil_r. f_equal.
  destruct (debug a); [|reflexivity].
  rewrite written_cons, written_nil. simpl. now rewrite app_nil_r.
Qed.




(** ** No deduplication *)




(** ** Text written outside lxml *)

(** C4 at a file whose name holds an ampersand: the DocumentId and its first
    token go to the output as they are, while the same DocumentId inside the
    segment, which lxml serialises, is escaped. *)
Theorem header_written_unescaped :
  nth_error (document amp_fs plain_args amp_file) 0
  = Some (Stdout, lit "<DOCUMENT id=" ++ dquote :: lit "a&b_NW_x_20200101_1"
                    ++ dquote :: lit ">" ++ [nl])
  /\ nth_error (document amp_fs plain_args amp_file) 1
     = Some (Stdout, lit "  <SOURCE_LANGUAGE>a&b</SOURCE_LANGUAGE>" ++ [nl])
  /\ escape_attr (lit "a&b_NW_x_20200101_1") = lit "a&amp;b_NW_x_20200101_1"
  /\ escape_text (lit "a&b") = lit "a&amp;b"
  /\ nth_error (document amp_fs plain_args amp_file) 7
     = Some (Stdout,
             segment_text (lit "a&b_NW_x_20200101_1") amp_file 0 (lit "x") 0 0
               (lit "9dd4e461268c8034f5c8564e155c67a6"))
  /\ escape_text (lit "a&b_NW_x_20200101_1") = lit "a&amp;b_NW_x_20200101_1".
Proof. repeat split; vm_compute; reflexivity. Qed.

(** * Instances *)


Lemma md5_hash_source_witness :
  exists e bytes,
    segment (fullid_of example_path) example_path 0 (lit "Hello") 0 4 = Some e
    /\ encode_utf8 (lit "Hello") = Some bytes
    /\ source_text e (lit "MD5_HASH_SOURCE") = Some (MD5.hexdigest bytes)
    /\ length (MD5.hexdigest bytes) = 32%nat.
Proof.
  destruct (segment (fullid_of example_path) example_path 0 (lit "Hello") 0 4)
    as [e|] eqn:E.
  - destruct (proj1 md5_hash_source _ _ _ _ _ _ _ E)
      as [bytes [Hb [Ht [Hl _]]]].
    exists e, bytes. repeat split; assumption.
  - vm_compute in E. discriminate E.
Defined.


(** * Further properties *)

(** ** Escaping and reading back *)

Lemma unescape_text_step (c : Z) (t : pystr) (fuel : nat) :
  (length (escape_text_char c ++ t) <= fuel)%nat ->
  exists fuel',
    (length t <= fuel')%nat
    /\ unescape_from false None fuel (escape_text_char c ++ t)
       = c :: unescape_from false None fuel' t.
Proof.
  unfold escape_text_char.
  destruct (Z.eqb_spec c 60) as [->|N60].
  { intros H. simpl in H. do 4 (destruct fuel as [|fuel]; [lia|]).
    exists fuel. split; [lia | reflexivity]. }
  destruct (Z.eqb_spec c 62) as [->|N62].
  { intros H. simpl in H. do 4 (destruct fuel as [|fuel]; [lia|]).
    exists fuel. split; [lia | reflexivity]. }
  destruct (Z.eqb_spec c 38) as [->|N38].
  { intros H. simpl in H. do 5 (destruct fuel as [|fuel]; [lia|]).
    exists fuel. split; [lia | reflexivity]. }
  destruct (Z.eqb_spec c 13) as [->|N13].
  { intros H. simpl in H. do 5 (destruct fuel as [|fuel]; [lia|]).
    exists fuel. split; [lia | reflexivity]. }
  intros H. simpl in H. destruct fuel as [|fuel]; [lia|].
  exists fuel. split; [lia|]. simpl.
  apply Z.eqb_neq in N38, N13. now rewrite N38, N13.
Qed.

Lemma unescape_text_fuel (s : pystr) :
  forall fuel, (length (escape_text s) <= fuel)%nat ->
               unescape_from false None fuel (escape_text s) = s.
Proof.
  induction s as [|c s IH]; intros fuel H.
  - now destruct fuel.
  - simpl escape_text in *. fold (escape_text s) in *.
    destruct (unescape_text_step c (escape_text s) fuel H) as [f' [Hf ->]].
    now rewrite IH.
Qed.

(** X1. The text that the serialiser writes for a text node is read back as
    the text itself, whatever characters it holds. *)
Theorem escape_text_round_trip (s : pystr) :
  unescape_text (escape_text s) = s.
Proof. apply unescape_text_fuel, Nat.le_refl. Qed.

Lemma unescape_attr_step (c : Z) (t : pystr) (fuel : nat) :
  (length (escape_attr_char c ++ t) <= fuel)%nat ->
  exists fuel',
    (length t <= fuel')%nat
    /\ unescape_from true None fuel (escape_attr_char c ++ t)
       = c :: unescape_from true None fuel' t.
Proof.
  unfold escape_attr_char.
  destruct (Z.eqb_spec c 10) as [->|N10].
  { intros H. simpl in H. do 5 (destruct fuel as [|fuel]; [lia|]).
    exists fuel. split; [lia | reflexivity]. }
  destruct (Z.eqb_spec c 13) as [->|N13].
  { intros H. simpl in H. do 5 (destruct fuel as [|fuel]; [lia|]).
    exists fuel. split; [lia | reflexivity]. }
  destruct (Z.eqb_spec c 9) as [->|N9].
  { intros H. simpl in H. do 4 (destruct fuel as [|fuel]; [lia|]).
    exists fuel. split; [lia | reflexivity]. }
  destruct (Z.eqb_spec c dquote) as [->|N34].
  { intros H. simpl in H. do 6 (destruct fuel as [|fuel]; [lia|]).
    exists fuel. split; [lia | reflexivity]. }
  destruct (Z.eqb_spec c 60) as [->|N60].
  { intros H. simpl in H. do 4 (destruct fuel as [|fuel]; [lia|]).
    exists fuel. split; [lia | reflexivity]. }
  destruct (Z.eqb_spec c 62) as [->|N62].
  { intros H. simpl in H. do 4 (destruct fuel as [|fuel]; [lia|]).
    exists fuel. split; [lia | reflexivity]. }
  destruct (Z.eqb_spec c 38) as [->|N38].
  { intros H. simpl in H. do 5 (destruct fuel as [|fuel]; [lia|]).
    exists fuel. split; [lia | reflexivity]. }
  intros H. simpl in H. destruct fuel as [|fuel]; [lia|].
  exists fuel. split; [lia|]. simpl.
  apply Z.eqb_neq in N38, N13, N9, N10. now rewrite N38, N13, N9, N10.
Qed.

Lemma unescape_attr_fuel (s : pystr) :
  forall fuel, (length (escape_attr s) <= fuel)%nat ->
               unescape_from true None fuel (escape_attr s) = s.
Proof.
  induction s as [|c s IH]; intros fuel H.
  - now destruct fuel.
  - simpl escape_attr in *. fold (escape_attr s) in *.
    destruct (unescape_attr_step c (escape_attr s) fuel H) as [f' [Hf ->]].
    now rewrite IH.
Qed.

(** X2. The value that the serialiser writes for an attribute is read back
    as the value itself: tabs, line ends and quotes in it survive. *)
Theorem escape_attr_round_trip (s : pystr) :
  unescape_attr (escape_attr s) = s.
Proof. apply unescape_attr_fuel, Nat.le_refl. Qed.

(** X3. A serialised text holds no angle bracket and no carriage return,
    and a serialised attribute value holds moreover no quote, tab or line
    feed: nothing in a line or in a name can close the element or the
    attribute it is written in. *)
Theorem escaped_holds_no_markup (s : pystr) :
  (forall c, In c (escape_text s) -> c <> 60 /\ c <> 62 /\ c <> 13)
  /\ (forall c, In c (escape_attr s) ->
        c <> 60 /\ c <> 62 /\ c <> 13 /\ c <> dquote /\ c <> 9 /\ c <> 10).
Proof.
  split; intros c Hc; apply in_flat_map in Hc; destruct Hc as [x [_ Hc]].
  - unfold escape_text_char in Hc.
    destruct (Z.eqb_spec x 60);
      [simpl in Hc; intuition (subst; discriminate)|].
    destruct (Z.eqb_spec x 62);
      [simpl in Hc; intuition (subst; discriminate)|].
    destruct (Z.eqb_spec x 38);
      [simpl in Hc; intuition (subst; discriminate)|].
    destruct (Z.eqb_spec x 13);
      [simpl in Hc; intuition (subst; discriminate)|].
    destruct Hc as [<-|[]]. auto.
  - unfold escape_attr_char, dquote in *.
    destruct (Z.eqb_spec x 10);
      [simpl in Hc; intuition (subst; discriminate)|].
    destruct (Z.eqb_spec x 13);
      [simpl in Hc; intuition (subst; discriminate)|].
    destruct (Z.eqb_spec x 9);
      [simpl in Hc; intuition (subst; discriminate)|].
    destruct (Z.eqb_spec x 34);
      [simpl in Hc; intuition (subst; discriminate)|].
    destruct (Z.eqb_spec x 60);
      [simpl in Hc; intuition (subst; discriminate)|].
    destruct (Z.eqb_spec x 62);
      [simpl in Hc; intuition (subst; discriminate)|].
    destruct (Z.eqb_spec x 38);
      [simpl in Hc; intuition (subst; discriminate)|].
    destruct Hc as [<-|[]]. auto 10.
Qed.

(** ** When a segment is built *)

(** X4. The body of the loop succeeds exactly when lxml accepts the
    DocumentId, the basename and the stripped line: a control character
    (other than tab, line feed and carriage return), a surrogate, U+FFFE or
    U+FFFF in one of them makes it raise. *)
Theorem segment_built_iff (fullid infile : pystr) (ln : nat) (line : pystr)
    (cs ce : Z) :
  segment fullid infile ln line cs ce <> None
  <-> xml_compatible fullid && xml_compatible (basename infile)
      && xml_compatible line = true.
Proof.
  split.
  - destruct (segment fullid infile ln line cs ce) as [e|] eqn:E;
      [|now intros H].
    intros _. apply segment_inv in E.
    destruct E as [bytes [_ [_ [-> [-> ->]]]]]. reflexivity.
  - intros H. apply andb_prop in H as [H Hl]. apply andb_prop in H as [Hf Hb].
    destruct (segment_ok fullid infile ln line cs ce Hf Hb Hl)
      as [bytes [_ ->]].
    discriminate.
Qed.

Lemma process_lines_stops (fullid infile : pystr) (lines : list pystr) :
  forall (ln : nat) (c : Z) (raised : bool) (k : nat) (raw : pystr),
    nth_error lines k = Some raw ->
    xml_compatible (strip raw) = false ->
    (length (fst (process_lines fullid infile ln c lines raised)) <= k)%nat
    /\ snd (process_lines fullid infile ln c lines raised) = true.
Proof.
  induction lines as [|raw0 lines IH]; intros ln c raised k raw Hn Hx.
  - now destruct k.
  - simpl.
    destruct (segment fullid infile ln (strip raw0) c
                (c + len (strip raw0) - 1)) as [e|] eqn:E.
    + destruct k as [|k]; simpl in Hn.
      * injection Hn as ->. apply segment_inv in E.
        destruct E as [bytes [_ [_ [_ [_ E]]]]]. congruence.
      * specialize (IH (S ln) (c + len (strip raw0) - 1 + 2) raised k raw
                      Hn Hx).
        destruct (process_lines _ _ _ _ _ _). simpl in *.
        split; [lia | tauto].
    + simpl. split; [lia | reflexivity].
Qed.

Lemma process_lines_complete (fullid infile : pystr) (lines : list pystr) :
  forall (ln : nat) (c : Z) (raised : bool),
    snd (process_lines fullid infile ln c lines raised) = false
    <-> raised = false
        /\ length (fst (process_lines fullid infile ln c lines raised))
           = length lines.
Proof.
  induction lines as [|raw lines IH]; intros ln c raised; simpl.
  - tauto.
  - destruct (segment _ _ _ _ _ _); simpl.
    + specialize (IH (S ln) (c + len (strip raw) - 1 + 2) raised).
      destruct (process_lines _ _ _ _ _ _). simpl in *.
      rewrite IH. split; intros [? ?]; split; auto; lia.
    + split; [discriminate | intros [_ H]; discriminate H].
Qed.

(** X6. A file is free of the warning exactly when reading it did not raise
    and every one of its lines has its segment: an output without the
    warning is complete. *)
Theorem no_problem_iff_complete (fs : filesystem) (a : args)
    (infile : pystr) :
  length (idtoks_of infile) = 5%nat ->
  let r := prepfile_r fs infile in
  let done :=
    fst (process_lines (fullid_of infile) infile 0 0 (yielded r) (raises r)) in
  written Stderr (document fs a infile) = []
  <-> raises r = false /\ length done = length (yielded r).
Proof.
  intros H5 r dn. unfold dn.
  transitivity (snd (process_lines (fullid_of infile) infile 0 0 (yielded r)
                       (raises r)) = false);
    [|apply process_lines_complete].
  rewrite (document_valid fs a infile H5). fold r.
  change (document_open a (fullid_of infile)
            :: map (field a) (combine fullidfields (idtoks_of infile))
            ++ direction_line a
            :: map (fun e => (sink a, tostring e))
                 (fst (process_lines (fullid_of infile) infile 0 0
                         (yielded r) (raises r)))
            ++ (if snd (process_lines (fullid_of infile) infile 0 0
                          (yielded r) (raises r))
                then [had_a_problem infile] else [])
            ++ [document_close a])
    with ([document_open a (fullid_of infile)]
            ++ map (field a) (combine fullidfields (idtoks_of infile))
            ++ [direction_line a]
            ++ map (fun e => (sink a, tostring e))
                 (fst (process_lines (fullid_of infile) infile 0 0
                         (yielded r) (raises r)))
            ++ (if snd (process_lines (fullid_of infile) infile 0 0
                          (yielded r) (raises r))
                then [had_a_problem infile] else [])
            ++ [document_close a]).
  rewrite !written_app. unfold field.
  rewrite !(written_other Stderr (sink a)) by apply sink_not_stderr.
  unfold document_open, direction_line, document_close.
  rewrite !written_cons, !written_nil. cbn [fst snd].
  rewrite !sink_not_stderr. cbn [app]. rewrite app_nil_r.
  destruct (snd (process_lines (fullid_of infile) infile 0 0 (yielded r)
                   (raises r))).
  - rewrite written_cons, written_nil. cbn [fst snd stream_eqb].
    split; [|discriminate].
    intros H. apply (f_equal (@length Z)) in H.
    unfold had_a_problem in H. cbn [fst snd stream_eqb] in H.
    rewrite !length_app in H. simpl in H. lia.
  - rewrite written_nil. tauto.
Qed.

(** ** The cursor, in closed form *)

Lemma fold_advance (lines : list pystr) :
  forall c, fold_left advance lines c
            = c + Z.of_nat (length lines) + total_len lines.
Proof.
  induction lines as [|raw lines IH]; intros c; simpl fold_left.
  - simpl. lia.
  - rewrite IH. unfold advance, total_len. cbn [length fold_right].
    rewrite Nat2Z.inj_succ. lia.
Qed.

Lemma total_len_nonneg (lines : list pystr) : 0 <= total_len lines.
Proof.
  induction lines as [|raw lines IH]; simpl; [lia|]. unfold len. lia.
Qed.

Lemma cursor_le_next (lines : list pystr) (k : nat) :
  cursor lines k <= cursor lines (S k).
Proof.
  destruct (nth_error lines k) as [raw|] eqn:E.
  - rewrite (cursor_next lines k raw E). unfold len. lia.
  - apply nth_error_None in E. unfold cursor.
    rewrite !firstn_all2 by lia. lia.
Qed.

Lemma cursor_mono (lines : list pystr) (j k : nat) :
  (j <= k)%nat -> cursor lines j <= cursor lines k.
Proof.
  induction 1 as [|k _ IH]; [lia|].
  pose proof (cursor_le_next lines k). lia.
Qed.

(** ** Stripping *)

Lemma lstrip_split (s : pystr) :
  exists pre, s = pre ++ lstrip s /\ forallb isspace pre = true.
Proof.
  induction s as [|c s [pre [E H]]]; [now exists []|].
  simpl. destruct (isspace c) eqn:Hc.
  - exists (c :: pre). simpl. rewrite Hc, H. now rewrite <- E.
  - now exists [].
Qed.

Lemma lstrip_head (s : pystr) (c : Z) (r : pystr) :
  lstrip s = c :: r -> isspace c = false.
Proof.
  induction s as [|d s IH]; simpl; [discriminate|].
  destruct (isspace d) eqn:Hd; [exact IH|].
  now intros [= <- _].
Qed.

Lemma lstrip_idem (s : pystr) : lstrip (lstrip s) = lstrip s.
Proof.
  destruct (lstrip s) as [|c r] eqn:E; [reflexivity|].
  simpl. now rewrite (lstrip_head s c r E).
Qed.

Lemma lstrip_snoc (u : pystr) (c : Z) :
  isspace c = false -> lstrip (u ++ [c]) = lstrip u ++ [c].
Proof.
  intros Hc. induction u as [|d u IH]; simpl.
  - now rewrite Hc.
  - now destruct (isspace d).
Qed.

Lemma rstrip_cons (c : Z) (t : pystr) :
  isspace c = false -> rstrip (c :: t) = c :: rstrip t.
Proof.
  intros Hc. unfold rstrip. simpl rev.
  rewrite lstrip_snoc by exact Hc. rewrite rev_app_distr. reflexivity.
Qed.

Lemma rstrip_split (s : pystr) :
  exists post, s = rstrip s ++ post /\ forallb isspace post = true.
Proof.
  unfold rstrip. destruct (lstrip_split (rev s)) as [pre [E H]].
  exists (rev pre). split.
  - rewrite <- rev_app_distr, <- E. now rewrite rev_involutive.
  - rewrite forallb_forall in *. intros c Hc. apply H.
    now apply in_rev.
Qed.

(** X8. Stripping removes white space at both ends and nothing else: the
    line is the stripped line between two runs of white space; the stripped
    line neither starts nor ends with white space; stripping again changes
    nothing. *)
Theorem strip_decomposition (raw : pystr) :
  (exists pre post,
     raw = pre ++ strip raw ++ post
     /\ forallb isspace pre = true /\ forallb isspace post = true)
  /\ (forall c rest, strip raw = c :: rest -> isspace c = false)
  /\ (forall c init, strip raw = init ++ [c] -> isspace c = false)
  /\ strip (strip raw) = strip raw.
Proof.
  assert (Hhead : forall c rest, strip raw = c :: rest -> isspace c = false).
  { unfold strip. intros c rest H.
    destruct (lstrip raw) as [|c0 t] eqn:E; [discriminate H|].
    pose proof (lstrip_head raw c0 t E) as Hc0.
    rewrite (rstrip_cons c0 t Hc0) in H. now injection H as <- _. }
  assert (Hlast : forall c init, strip raw = init ++ [c] -> isspace c = false).
  { unfold strip, rstrip. intros c init H.
    apply (f_equal (@rev Z)) in H.
    rewrite rev_involutive, rev_app_distr in H. simpl in H.
    exact (lstrip_head _ _ _ H). }
  split; [|split; [exact Hhead|split; [exact Hlast|]]].
  - destruct (lstrip_split raw) as [pre [E1 H1]].
    destruct (rstrip_split (lstrip raw)) as [post [E2 H2]].
    exists pre, post. unfold strip. now rewrite <- E2, <- E1.
  - assert (L : lstrip (strip raw) = strip raw).
    { destruct (strip raw) as [|c r] eqn:E; [reflexivity|].
      simpl. now rewrite (Hhead c r eq_refl). }
    unfold strip at 1. rewrite L. unfold strip, rstrip.
    now rewrite rev_involutive, lstrip_idem.
Qed.

(** ** Names *)

Lemma split_tokens (sep : Z) (s : pystr) :
  forall t, In t (split sep s) ->
            ~ In sep t /\ (forall c, In c t -> In c s).
Proof.
  induction s as [|d s IH]; simpl.
  - intros t [<-|[]]. split; [tauto | auto].
  - destruct (Z.eqb_spec d sep) as [->|Hne].
    + intros t [<-|Ht]; [split; [tauto | intros c []]|].
      destruct (IH t Ht) as [H1 H2]. split; [exact H1 | auto].
    + destruct (split sep s) as [|t0 ts] eqn:E;
        [now destruct (split_not_nil sep s)|].
      intros t [<-|Ht].
      * destruct (IH t0 (or_introl eq_refl)) as [H1 H2]. split.
        -- intros [H|H]; [congruence | tauto].
        -- intros c [<-|Hc]; [now left | right; auto].
      * destruct (IH t (or_intror Ht)) as [H1 H2]. split; [exact H1 | auto].
Qed.

Lemma split_no_sep (sep : Z) (s : pystr) : ~ In sep s -> split sep s = [s].
Proof.
  induction s as [|c s IH]; intros H; [reflexivity|].
  simpl. destruct (Z.eqb_spec c sep) as [->|Hne].
  - destruct H. now left.
  - rewrite IH; [reflexivity|]. intros Hs. apply H. now right.
Qed.

Lemma split_app_sep (sep : Z) (a b : pystr) :
  split sep (a ++ sep :: b) = split sep a ++ split sep b.
Proof.
  induction a as [|c a IH]; simpl.
  - now rewrite Z.eqb_refl.
  - destruct (c =? sep); [now rewrite IH|].
    rewrite IH. destruct (split sep a) as [|t ts] eqn:E;
      [now destruct (split_not_nil sep a) | reflexivity].
Qed.

Lemma last_app_ne {A} (l1 l2 : list A) (d : A) :
  l2 <> [] -> last (l1 ++ l2) d = last l2 d.
Proof.
  intros H. induction l1 as [|x l1 IH]; [reflexivity|].
  simpl. destruct (l1 ++ l2) eqn:E; [|exact IH].
  apply app_eq_nil in E. now destruct H.
Qed.

Lemma last_in {A} (l : list A) (d : A) : l <> [] -> In (last l d) l.
Proof.
  induction l as [|x l IH]; intros H; [contradiction|].
  destruct l as [|y l]; [now left|]. right. apply IH. discriminate.
Qed.

Lemma basename_no_slash (p : pystr) : ~ In slash (basename p).
Proof.
  unfold basename.
  apply (split_tokens slash p), last_in, split_not_nil.
Qed.

Lemma basename_in (p : pystr) (c : Z) : In c (basename p) -> In c p.
Proof.
  unfold basename.
  apply (split_tokens slash p), last_in, split_not_nil.
Qed.

Lemma basename_after_slash (dir name : pystr) :
  ~ In slash name -> basename (dir ++ slash :: name) = name.
Proof.
  intros H. unfold basename. rewrite split_app_sep.
  rewrite last_app_ne by apply split_not_nil.
  now rewrite split_no_sep.
Qed.

Lemma basename_plain (name : pystr) : ~ In slash name -> basename name = name.
Proof. intros H. unfold basename. now rewrite split_no_sep. Qed.

(** X9. The DocumentId is its tokens joined with underscores, and no token
    holds an underscore, a dot or a slash: the five fields of a document
    determine its [id]. *)
Theorem documentid_round_trip (infile : pystr) :
  join_with underscore (idtoks_of infile) = fullid_of infile
  /\ Forall (fun t => ~ In underscore t /\ ~ In dot t /\ ~ In slash t)
       (idtoks_of infile)
  /\ (forall t1 t2 t3 t4 t5,
        idtoks_of infile = [t1; t2; t3; t4; t5] ->
        fullid_of infile
        = t1 ++ underscore :: t2 ++ underscore :: t3 ++ underscore :: t4
            ++ underscore :: t5).
Proof.
  split; [apply split_join|]. split.
  - apply Forall_forall. intros t Ht.
    destruct (split_tokens underscore (fullid_of infile) t Ht) as [H1 H2].
    split; [exact H1|].
    destruct (split_head dot (basename infile)) as [Hd Hs].
    split.
    + intros Hc. apply Hd. apply H2, Hc.
    + intros Hc. apply (basename_no_slash infile).
      apply H2 in Hc. unfold fullid_of in Hc.
      destruct Hs as [Hs|[ext Hs]]; rewrite Hs.
      * exact Hc.
      * apply in_or_app. now left.
  - intros t1 t2 t3 t4 t5 H.
    rewrite <- (split_join underscore (fullid_of infile)).
    unfold idtoks_of in H. now rewrite H.
Qed.

(** X10. For a path made of a directory, a stem without dot and an
    extension, the DocumentId is the stem, however many dots the extension
    holds, and so it is for the stem alone: [name.txt], [name.txt.gz] and
    [name] give the same DocumentId. *)
Theorem fullid_of_path (dir stem ext : pystr) :
  ~ In dot stem -> ~ In slash stem -> ~ In slash ext ->
  fullid_of (dir ++ slash :: stem ++ dot :: ext) = stem
  /\ basename (dir ++ slash :: stem ++ dot :: ext) = stem ++ dot :: ext
  /\ fullid_of (dir ++ slash :: stem) = stem
  /\ fullid_of (stem ++ dot :: ext) = stem
  /\ fullid_of stem = stem.
Proof.
  intros Hd Hs He.
  assert (Hse : ~ In slash (stem ++ dot :: ext)).
  { intros H. apply in_app_or in H. destruct H as [H|[H|H]]; try tauto.
    discriminate H. }
  assert (F : nth 0 (split dot (stem ++ dot :: ext)) [] = stem).
  { rewrite split_app_sep, (split_no_sep dot stem Hd). reflexivity. }
  assert (G : nth 0 (split dot stem) [] = stem).
  { now rewrite (split_no_sep dot stem Hd). }
  unfold fullid_of.
  rewrite (basename_after_slash dir _ Hse), (basename_after_slash dir _ Hs),
    (basename_plain _ Hse), (basename_plain _ Hs).
  auto.
Qed.

Lemma ends_with_slash (a : pystr) :
  a <> [] -> last a 0 = slash -> exists a', a = a' ++ [slash].
Proof.
  intros Hne Hl. destruct (exists_last Hne) as [a' [c E]].
  exists a'. rewrite E in Hl. rewrite last_last in Hl. now subst c.
Qed.

(** X11. A file found by listing a directory keeps its listed name as
    basename, so [ORIG_FILENAME] and the DocumentId come from the entry
    alone, not from the directory given on the command line. *)
Theorem listed_file_basename (entry name : pystr) :
  name <> [] -> ~ In slash name ->
  basename (join entry name) = name
  /\ fullid_of (join entry name) = nth 0 (split dot name) [].
Proof.
  intros Hne Hs.
  assert (B : basename (join entry name) = name).
  { unfold join. destruct name as [|c name']; [contradiction|].
    destruct (Z.eqb_spec c slash) as [->|Hc]; [destruct Hs; now left|].
    destruct entry as [|e entry']; [now apply basename_plain|].
    destruct (Z.eqb_spec (last (e :: entry') 0) slash) as [Hl|Hl].
    - destruct (ends_with_slash (e :: entry') ltac:(discriminate) Hl)
        as [a' ->].
      rewrite <- app_assoc. simpl. now apply basename_after_slash.
    - now apply basename_after_slash. }
  split; [exact B|]. unfold fullid_of. now rewrite B.
Qed.

(** ** Documents opened and closed *)

Lemma process_lines_trees (fullid infile : pystr) (lines : list pystr)
    (ln : nat) (c : Z) (raised : bool) (e : element) :
  In e (fst (process_lines fullid infile ln c lines raised)) ->
  exists k line cs ce bytes,
    e = segment_tree fullid infile k line cs ce (MD5.hexdigest bytes).
Proof.
  intros H. apply In_nth_error in H. destruct H as [k H].
  apply process_lines_nth in H. destruct H as [raw [_ H]].
  apply segment_inv in H. destruct H as [bytes [_ [-> _]]].
  now exists (ln + k)%nat, (strip raw),
    (fold_left advance (firstn k lines) c),
    (fold_left advance (firstn k lines) c + len (strip raw) - 1), bytes.
Qed.

Lemma filter_map_none {A B} (p : B -> bool) (g : A -> B) (l : list A) :
  (forall x, In x l -> p (g x) = false) -> filter p (map g l) = [].
Proof.
  induction l as [|x l IH]; intros H; [reflexivity|].
  simpl. rewrite H by now left. apply IH. intros y Hy. apply H. now right.
Qed.

Lemma segments_are_not_documents (a : args) (fullid infile : pystr)
    (lines : list pystr) (raised : bool) (p : event -> bool) (tag : pystr) :
  (forall e, p e = starts_with tag (snd e) && stream_eqb (fst e) (sink a)) ->
  starts_with (lit "<S") tag = false ->
  (2 <= length tag)%nat ->
  filter p (map (fun e => (sink a, tostring e))
              (fst (process_lines fullid infile 0 0 lines raised))) = [].
Proof.
  intros Hp Ht Hl. apply filter_map_none. intros e He.
  apply process_lines_trees in He.
  destruct He as [k [line [cs [ce [bytes ->]]]]].
  rewrite Hp. cbn [fst snd].
  rewrite tostring_segment_tree by apply unreserved_hexdigest.
  unfold segment_text.
  destruct tag as [|t1 [|t2 tag]]; simpl in Hl; try lia.
  change (lit "<SEGMENT>") with (60 :: 83 :: lit "EGMENT>").
  change (lit "<S") with [60; 83] in Ht.
  cbn [app starts_with] in *.
  rewrite (Z.eqb_sym t1), (Z.eqb_sym t2).
  destruct (60 =? t1); [|reflexivity].
  destruct (83 =? t2); [|reflexivity].
  simpl in Ht. discriminate Ht.
Qed.

Lemma fields_are_not_documents (a : args) (l : list (pystr * pystr))
    (p : event -> bool) (tag : pystr) :
  (forall e, p e = starts_with tag (snd e) && stream_eqb (fst e) (sink a)) ->
  starts_with (lit " ") tag = false ->
  (1 <= length tag)%nat ->
  filter p (map (field a) l) = [] /\ p (direction_line a) = false.
Proof.
  intros Hp Ht Hl.
  destruct tag as [|t1 tag]; simpl in Hl; try lia.
  assert (T : (t1 =? 32) = false).
  { change (lit " ") with [32] in Ht. simpl in Ht.
    rewrite Z.eqb_sym. now rewrite andb_true_r in Ht. }
  split.
  - apply filter_map_none. intros x _. rewrite Hp. unfold field.
    cbn [fst snd]. change (lit "  <") with [32; 32; 60].
    cbn [app starts_with]. now rewrite T.
  - rewrite Hp. unfold direction_line. cbn [fst snd].
    change (lit "  <DIRECTION>") with (32 :: lit " <DIRECTION>").
    cbn [app starts_with]. now rewrite T.
Qed.

Lemma document_counts (fs : filesystem) (a : args) (infile : pystr) :
  length (filter (opens_document a) (document fs a infile))
  = (if valid_name infile then 1 else 0)%nat
  /\ length (filter (closes_document a) (document fs a infile))
     = (if valid_name infile then 1 else 0)%nat.
Proof.
  unfold valid_name.
  destruct (Nat.eqb_spec (length (idtoks_of infile)) 5) as [E|E].
  - rewrite (document_valid fs a infile E).
    assert (P : forall b : bool, filter (opens_document a)
                            (if b then [had_a_problem infile] else []) = []
                          /\ filter (closes_document a)
                               (if b then [had_a_problem infile] else [])
                             = []).
    { intros [|]; [|now split].
      unfold had_a_problem. cbn [filter].
      unfold opens_document, closes_document. cbn [fst snd].
      rewrite stderr_not_sink, !andb_false_r. now split. }
    split.
    + destruct (fields_are_not_documents a
                  (combine fullidfields (idtoks_of infile))
                  (opens_document a) (lit "<DOCUMENT ")
                  (fun e => eq_refl) eq_refl) as [F D]; [simpl; lia|].
      repeat first [rewrite filter_app | progress cbn [filter]].
      rewrite F, D.
      rewrite (segments_are_not_documents a _ _ _ _ (opens_document a)
                 (lit "<DOCUMENT ") (fun e => eq_refl) eq_refl)
        by (simpl; lia).
      rewrite (proj1 (P _)).
      unfold opens_document at 1 3, document_open, document_close.
      cbn [fst snd]. rewrite stream_eqb_refl. reflexivity.
    + destruct (fields_are_not_documents a
                  (combine fullidfields (idtoks_of infile))
                  (closes_document a) (lit "</DOCUMENT>")
                  (fun e => eq_refl) eq_refl) as [F D]; [simpl; lia|].
      repeat first [rewrite filter_app | progress cbn [filter]].
      rewrite F, D.
      rewrite (segments_are_not_documents a _ _ _ _ (closes_document a)
                 (lit "</DOCUMENT>") (fun e => eq_refl) eq_refl)
        by (simpl; lia).
      rewrite (proj2 (P _)).
      unfold closes_document at 1 3, document_open, document_close.
      cbn [fst snd]. rewrite stream_eqb_refl. reflexivity.
  - rewrite (document_invalid fs a infile E).
    unfold bad_name. cbn [filter].
    unfold opens_document, closes_document. cbn [fst snd].
    rewrite stderr_not_sink, !andb_false_r. now split.
Qed.

(** X12. Whatever happens while the files are read, the program makes as
    many writes that start with the opening of [DOCUMENT] as writes that
    start with its closing, one of each for every input file whose name has
    five tokens. (The count is of calls of [write] on the output, not of
    occurrences in its text: a file name or a direction may hold these
    strings.) *)
Theorem documents_balanced (fs : filesystem) (a : args) (l : list pystr) :
  length (filter (opens_document a) (documents fs a l))
  = length (filter valid_name l)
  /\ length (filter (closes_document a) (documents fs a l))
     = length (filter valid_name l).
Proof.
  induction l as [|f l [IHo IHc]]; [now split|].
  simpl documents. rewrite !filter_app, !length_app, IHo, IHc.
  destruct (document_counts fs a f) as [-> ->].
  simpl filter. now destruct (valid_name f).
Qed.

(** ** Runs without documents, and runs that abort *)

Lemma document_output_invalid (d : pystr) (r : reading) (infile : pystr) :
  valid_name infile = false -> document_output d r infile = [].
Proof.
  intros H. unfold valid_name, idtoks_of, fullid_of in H.
  unfold document_output. cbv zeta. now rewrite H.
Qed.

Lemma documents_output_invalid (fs : filesystem) (d : pystr)
    (l : list pystr) :
  (forall f, In f l -> valid_name f = false) ->
  concat (map (fun f => document_output d (prepfile_r fs f) f) l) = [].
Proof.
  induction l as [|f l IH]; intros H; [reflexivity|].
  simpl. rewrite document_output_invalid by (apply H; now left).
  apply IH. intros x Hx. apply H. now right.
Qed.

(** X13. When no input file has a name of five tokens (in particular when
    no path exists), the run still writes a complete, empty corpus: the
    three heading lines and the closing of the root element. *)
Theorem empty_corpus (fs : filesystem) (a : args) (workdir : pystr)
    (l : list pystr) (tr : list event) :
  resolve fs (infiles a) [] [] = Some (l, tr) ->
  forallb (fun f => negb (valid_name f)) l = true ->
  exists t,
    main fs a workdir = Some t
    /\ written (sink a) t
       = (if debug a && stream_eqb Stdout (sink a) then workdir ++ [nl] else [])
         ++ corpus_output (language a) (direction a) [].
Proof.
  intros R H. destruct (written_main fs a workdir l tr R) as [t [M W]].
  exists t. split; [exact M|]. rewrite W. f_equal.
  unfold corpus_output. do 3 f_equal.
  rewrite map_map. cbn [fst snd map concat].
  rewrite documents_output_invalid; [reflexivity|]. intros f Hf.
  rewrite forallb_forall in H. now apply negb_true_iff, H.
Qed.

Lemma resolve_none_iff (fs : filesystem) (entries : list pystr) :
  resolve fs entries [] [] = None
  <-> exists entry, In entry entries /\ fs entry = Special.
Proof.
  split.
  - intros H. destruct (forallb (resolvable fs) entries) eqn:F.
    + rewrite (resolve_closed_form fs entries [] [] F) in H. discriminate H.
    + assert (X : existsb (fun e => negb (resolvable fs e)) entries = true).
      { clear H. induction entries as [|e l IH]; [discriminate F|].
        simpl in *. destruct (resolvable fs e); simpl in *; auto. }
      apply existsb_exists in X. destruct X as [e [He Hr]].
      exists e. split; [exact He|].
      unfold resolvable in Hr. now destruct (fs e).
  - intros [e [He Hs]].
    destruct (resolve fs entries [] []) as [res|] eqn:R; [|reflexivity].
    apply resolve_some_resolvable in R. rewrite forallb_forall in R.
    specialize (R e He). unfold resolvable in R. rewrite Hs in R.
    discriminate R.
Qed.

(** ** prepfile *)

Lemma starts_with_app (p s : pystr) : starts_with p (p ++ s) = true.
Proof.
  induction p as [|c p IH]; [reflexivity|]. simpl.
  now rewrite Z.eqb_refl.
Qed.

Lemma endswith_app (s suffix : pystr) : endswith (s ++ suffix) suffix = true.
Proof. unfold endswith. rewrite rev_app_distr. apply starts_with_app. Qed.

(** X15. Under Python 3, [prepfile] gives a gzip stream exactly for a name
    that ends in [.gz], opened in a text mode that starts with the mode
    asked for, and the file itself otherwise; so the program reads [.gz]
    inputs with mode [rt] and the others with mode [r]. *)
Theorem prepfile_python3 (fh : fharg) (code : pystr) :
  let name := match fh with Path p => p | OpenFile n _ => n end in
  let given :=
    match fh with Path p => Builtin p code | OpenFile n m => Builtin n m end in
  (endswith name (lit ".gz") = true ->
   exists mode,
     prepfile false fh code = Gzip name mode
     /\ endswith mode (lit "t") = true
     /\ startswith mode code = true)
  /\ (endswith name (lit ".gz") = false -> prepfile false fh code = given)
  /\ through_gzip (prepfile false fh code) = endswith name (lit ".gz")
  /\ (forall infile,
        prepfile false (Path infile) (lit "r")
        = if endswith infile (lit ".gz") then Gzip infile (lit "rt")
          else Builtin infile (lit "r")).
Proof.
  intros name given. subst name given. unfold prepfile, startswith.
  assert (M : forall c : pystr,
             endswith (if endswith c (lit "t") then c else c ++ lit "t")
               (lit "t") = true
             /\ starts_with c (if endswith c (lit "t") then c else c ++ lit "t")
                = true).
  { intros c. destruct (endswith c (lit "t")) eqn:E.
    - split; [exact E|]. rewrite <- (app_nil_r c) at 2.
      apply starts_with_app.
    - split; [apply endswith_app | apply starts_with_app]. }
  split; [|split; [|split]].
  - intros H. destruct fh as [p|n m]; rewrite H;
      (eexists; split; [reflexivity | apply M]).
  - intros H. destruct fh as [p|n m]; now rewrite H.
  - destruct fh as [p|n m]; destruct (endswith _ (lit ".gz")); reflexivity.
  - intros infile. now destruct (endswith infile (lit ".gz")).
Qed.

(** X16. Under Python 2, [prepfile] never gives a gzip stream: the codecs
    reader or writer it returns wraps the file itself, also for a name that
    ends in [.gz]; and for a mode that starts with neither [r] nor [w] it
    writes a message and exits. *)
Theorem prepfile_python2 (fh : fharg) (code : pystr) :
  through_gzip (prepfile true fh code) = false
  /\ ((exists msg, prepfile true fh code = Exit1 msg)
      <-> startswith code (lit "r") = false
          /\ startswith code (lit "w") = false).
Proof.
  unfold prepfile. split.
  - destruct fh; destruct (startswith code (lit "r"));
      destruct (startswith code (lit "w")); reflexivity.
  - destruct (startswith code (lit "r")); [|destruct (startswith code (lit "w"))].
    + split; [intros [msg H]; discriminate H | intros [H _]; discriminate H].
    + split; [intros [msg H]; discriminate H | intros [_ H]; discriminate H].
    + split; [auto | intros _; eexists; reflexivity].
Qed.

(** ** Code points and bytes *)

Lemma utf8_char_length (c : Z) (bs : list Z) :
  utf8_char c = Some bs ->
  (1 <= length bs <= 4)%nat /\ (length bs = 1%nat <-> c < 0x80).
Proof.
  unfold utf8_char.
  destruct (c <? 0) eqn:E0; [discriminate|].
  destruct (c <? 0x80) eqn:E1.
  { intros [= <-]. bools. simpl. split; [lia | tauto]. }
  destruct (c <? 0x800) eqn:E2.
  { intros [= <-]. bools. simpl. split; [lia|]. split; [discriminate | lia]. }
  destruct (c <? 0x10000) eqn:E3.
  { destruct ((0xD800 <=? c) && (c <=? 0xDFFF)); [discriminate|].
    intros [= <-]. bools. simpl. split; [lia|]. split; [discriminate | lia]. }
  destruct (c <? 0x110000) eqn:E4; [|discriminate].
  intros [= <-]. bools. simpl. split; [lia|]. split; [discriminate | lia].
Qed.

(** X17. The UTF-8 encoding that is hashed has at least as many bytes as
    the line has code points and at most four times as many, with equality
    exactly for a line of ASCII: the offsets count code points, not the
    bytes that are hashed. *)
Theorem utf8_length_bounds (s : pystr) (bs : list Z) :
  encode_utf8 s = Some bs ->
  len s <= Z.of_nat (length bs) <= 4 * len s
  /\ (Z.of_nat (length bs) = len s <-> forallb (fun c => c <? 0x80) s = true).
Proof.
  unfold len. revert bs. induction s as [|c s IH]; intros bs H.
  - injection H as <-. simpl. split; [lia | tauto].
  - simpl in H. destruct (utf8_char c) as [b1|] eqn:E1; [|discriminate H].
    destruct (encode_utf8 s) as [rest|] eqn:E2; [|discriminate H].
    injection H as <-. destruct (IH rest eq_refl) as [B Q].
    destruct (utf8_char_length c b1 E1) as [L1 Q1].
    rewrite length_app. cbn [length forallb]. split; [lia|].
    rewrite andb_true_iff, Z.ltb_lt, <- Q, <- Q1. lia.
Qed.

(** ** Decimal numbers and identifiers *)

Lemma lit_inj (s t : string) : lit s = lit t -> s = t.
Proof.
  revert t. induction s as [|a s IH]; intros [|b t] H; try discriminate H.
  - reflexivity.
  - unfold lit in H. simpl in H. injection H as Hc Hr.
    apply Nat2Z.inj in Hc || idtac.
    f_equal.
    + apply N2Z.inj in Hc. rewrite <- (ascii_N_embedding a),
        <- (ascii_N_embedding b). now rewrite Hc.
    + now apply IH.
Qed.

Lemma str_int_inj (n m : Z) : str_int n = str_int m -> n = m.
Proof.
  assert (N : forall z, Z.to_int z <> Decimal.Pos Decimal.Nil
                        /\ Z.to_int z <> Decimal.Neg Decimal.Nil).
  { intros [|p|p]; split; try discriminate; simpl; intros [= H];
      exact (DecimalPos.Unsigned.to_uint_nonnil p H). }
  unfold str_int. intros H. apply lit_inj in H.
  apply (f_equal NilZero.int_of_string) in H.
  rewrite !NilZero.isi in H by apply N. injection H as H.
  now apply DecimalZ.to_int_inj.
Qed.

Lemma segment_id_tree (fullid infile : pystr) (ln : nat) (line : pystr)
    (cs ce : Z) (md5 : pystr) :
  segment_id (segment_tree fullid infile ln line cs ce md5)
  = Some (fullid ++ lit "." ++ str_int (Z.of_nat ln)).
Proof. reflexivity. Qed.

(** X18. Decimal numbers are written without loss, and within one document
    no two segments share an [id]: the segment of line [k] has the
    DocumentId, a dot and [k] in decimal. *)
Theorem segment_ids_distinct (fullid infile : pystr) (lines : list pystr)
    (raised : bool) (j k : nat) (ej ek : element) :
  nth_error (fst (process_lines fullid infile 0 0 lines raised)) j = Some ej ->
  nth_error (fst (process_lines fullid infile 0 0 lines raised)) k = Some ek ->
  j <> k ->
  segment_id ej = Some (fullid ++ lit "." ++ str_int (Z.of_nat j))
  /\ segment_id ek = Some (fullid ++ lit "." ++ str_int (Z.of_nat k))
  /\ segment_id ej <> segment_id ek
  /\ (forall n m, str_int n = str_int m -> n = m).
Proof.
  intros Hj Hk Hne.
  apply process_lines_nth in Hj, Hk.
  destruct Hj as [rj [_ Hj]]. destruct Hk as [rk [_ Hk]].
  apply segment_inv in Hj, Hk.
  destruct Hj as [bj [_ [-> _]]]. destruct Hk as [bk [_ [-> _]]].
  rewrite !segment_id_tree. simpl Nat.add.
  split; [reflexivity|]. split; [reflexivity|].
  split; [|exact str_int_inj].
  intros H. injection H as H. apply app_inv_head in H.
  injection H as H. apply str_int_inj in H. lia.
Qed.

(** ** What goes to which stream *)

Lemma documents_stderr (fs : filesystem) (a : args) (l : list pystr) :
  Forall (fun e => fst e = Stderr -> is_warning (snd e)) (documents fs a l).
Proof.
  assert (S : forall x : pystr, fst (sink a, x) <> Stderr).
  { intros x H. simpl in H. pose proof (sink_not_stderr a) as N.
    rewrite H in N. discriminate N. }
  induction l as [|f l IH]; [constructor|].
  simpl documents. apply Forall_app. split; [|exact IH].
  destruct (Nat.eq_dec (length (idtoks_of f)) 5) as [E|E].
  - rewrite (document_valid fs a f E).
    constructor; [intros H; now destruct (S _ H)|].
    apply Forall_app. split.
    { apply Forall_forall. intros e He. apply in_map_iff in He.
      destruct He as [x [<- _]]. intros H. now destruct (S _ H). }
    constructor; [intros H; now destruct (S _ H)|].
    apply Forall_app. split.
    { apply Forall_forall. intros e He. apply in_map_iff in He.
      destruct He as [x [<- _]]. intros H. now destruct (S _ H). }
    apply Forall_app. split.
    + destruct (snd _); constructor; [|constructor].
      intros _. exists f. right. right. reflexivity.
    + constructor; [|constructor]. intros H. now destruct (S _ H).
  - rewrite (document_invalid fs a f E). constructor; [|constructor].
    intros _. exists f. right. left. reflexivity.
Qed.

Lemma some_eq {A} (x y : A) : Some x = Some y -> x = y.
Proof. now intros [= ->]. Qed.

Lemma main_trace (fs : filesystem) (a : args) (workdir : pystr)
    (l : list pystr) (tr : list event) :
  resolve fs (infiles a) [] [] = Some (l, tr) ->
  main fs a workdir
  = Some ((if debug a then [(Stdout, workdir ++ [nl])] else [])
            ++ map not_found (filter (is_missing fs) (infiles a))
            ++ prologue a ++ documents fs a l ++ epilogue a).
Proof.
  intros R. unfold main. rewrite R.
  now destruct (resolve_warnings _ _ _ _ R) as [_ <-].
Qed.

Lemma document_streams (fs : filesystem) (a : args) (infile : pystr) :
  Forall (fun e => fst e = sink a \/ fst e = Stderr) (document fs a infile).
Proof.
  destruct (Nat.eq_dec (length (idtoks_of infile)) 5) as [E|E].
  - rewrite (document_valid fs a infile E).
    constructor; [now left|].
    apply Forall_app. split.
    { apply Forall_forall. intros e He. apply in_map_iff in He.
      destruct He as [x [<- _]]. now left. }
    constructor; [now left|].
    apply Forall_app. split.
    { apply Forall_forall. intros e He. apply in_map_iff in He.
      destruct He as [x [<- _]]. now left. }
    apply Forall_app. split.
    + destruct (snd _); constructor; [now right | constructor].
    + constructor; [now left | constructor].
  - rewrite (document_invalid fs a infile E).
    constructor; [now right | constructor].
Qed.

Lemma body_streams (fs : filesystem) (a : args) (l entries : list pystr) :
  Forall (fun e => fst e = sink a \/ fst e = Stderr)
    (map not_found entries ++ prologue a ++ documents fs a l ++ epilogue a).
Proof.
  apply Forall_app. split.
  { apply Forall_forall. intros e He. apply in_map_iff in He.
    destruct He as [x [<- _]]. now right. }
  apply Forall_app. split.
  { unfold prologue. repeat constructor; now left. }
  apply Forall_app. split.
  - induction l as [|f l IH]; [constructor|].
    simpl. apply Forall_app. split; [apply document_streams | exact IH].
  - unfold epilogue. repeat constructor; now left.
Qed.

Lemma written_elsewhere (s : stream) (u : list event) :
  Forall (fun e => fst e <> s) u -> written s u = [].
Proof.
  induction u as [|e u IH]; intros F; [reflexivity|].
  inversion F as [|? ? He Fu]; subst. rewrite written_cons, (IH Fu).
  destruct (stream_eqb (fst e) s) eqn:E; [|reflexivity].
  destruct He. destruct (fst e), s; try discriminate E; reflexivity.
Qed.

(** X19. Nothing but warnings goes to the error stream. With [--outfile],
    the standard output receives the name of the working directory under
    [--debug] and nothing otherwise, and the file receives the corpus; with
    the default output, nothing is written to a file. *)
Theorem streams_separate (fs : filesystem) (a : args) (workdir : pystr)
    (t : list event) :
  main fs a workdir = Some t ->
  Forall (fun e => fst e = Stderr -> is_warning (snd e)) t
  /\ (forall p l tr,
        outfile a = Some p ->
        resolve fs (infiles a) [] [] = Some (l, tr) ->
        written Stdout t = (if debug a then workdir ++ [nl] else [])
        /\ written Outfile t
           = corpus_output (language a) (direction a)
               (map (fun f => (f, prepfile_r fs f)) l))
  /\ (outfile a = None -> written Outfile t = []).
Proof.
  intros M.
  destruct (resolve fs (infiles a) [] []) as [[l tr]|] eqn:R.
  2:{ unfold main in M. rewrite R in M. discriminate M. }
  pose proof (main_trace fs a workdir l tr R) as T. rewrite M in T.
  apply some_eq in T.
  pose proof (body_streams fs a l (filter (is_missing fs) (infiles a))) as B.
  split; [|split].
  - rewrite T. apply Forall_app. split.
    { destruct (debug a); constructor; [|constructor].
      intros H. discriminate H. }
    apply Forall_app. split.
    { apply Forall_forall. intros e He. apply in_map_iff in He.
      destruct He as [x [<- _]]. intros _. exists x. left. reflexivity. }
    assert (S : forall x : pystr, fst (sink a, x) <> Stderr).
    { intros x H. simpl in H. pose proof (sink_not_stderr a) as N.
      rewrite H in N. discriminate N. }
    apply Forall_app. split.
    { unfold prologue. repeat constructor; intros H; now destruct (S _ H). }
    apply Forall_app. split; [apply documents_stderr|].
    unfold epilogue. repeat constructor; intros H; now destruct (S _ H).
  - intros p l' tr' Ho R'. injection R' as <- <-.
    assert (Hs : sink a = Outfile) by (unfold sink; now rewrite Ho).
    destruct (written_main fs a workdir l tr R) as [t' [Mt W]].
    rewrite M in Mt. injection Mt as <-.
    rewrite Hs in W. rewrite andb_false_r in W. split; [|exact W].
    rewrite T, written_app.
    rewrite (written_elsewhere Stdout (map not_found _ ++ _)).
    + rewrite app_nil_r. destruct (debug a); [|reflexivity].
      rewrite written_cons, written_nil. simpl. now rewrite app_nil_r.
    + rewrite Hs in B. eapply Forall_impl; [|exact B].
      intros e [H|H]; rewrite H; discriminate.
  - intros Ho.
    assert (Hs : sink a = Stdout) by (unfold sink; now rewrite Ho).
    rewrite T. apply written_elsewhere. apply Forall_app. split.
    + destruct (debug a); constructor; [discriminate | constructor].
    + rewrite Hs in B. eapply Forall_impl; [|exact B].
      intros e [H|H]; rewrite H; discriminate.
Qed.

(** * Instances of the further properties *)

Lemma not_in_forallb (x : Z) (s : pystr) :
  forallb (fun c => negb (c =? x)) s = true -> ~ In x s.
Proof.
  rewrite forallb_forall. intros H Hx. specialize (H x Hx).
  now rewrite Z.eqb_refl in H.
Defined.

Lemma no_problem_iff_complete_witness :
  length (idtoks_of example_path) = 5%nat
  /\ (written Stderr (document example_fs example_args example_path) = []
      <-> raises (prepfile_r example_fs example_path) = false
          /\ length (fst (process_lines (fullid_of example_path) example_path
                            0 0 (yielded (prepfile_r example_fs example_path))
                            (raises (prepfile_r example_fs example_path))))
             = length (yielded (prepfile_r example_fs example_path))).
Proof.
  assert (H5 : length (idtoks_of example_path) = 5%nat)
    by (vm_compute; reflexivity).
  split; [exact H5|].
  exact (no_problem_iff_complete example_fs example_args example_path H5).
Defined.

Lemma fullid_of_path_witness :
  fullid_of (lit "data" ++ slash :: lit "eng_NW_abc123_20200101_00000001"
               ++ dot :: lit "txt.gz")
  = lit "eng_NW_abc123_20200101_00000001"
  /\ fullid_of (lit "data" ++ slash :: lit "eng_NW_abc123_20200101_00000001")
     = lit "eng_NW_abc123_20200101_00000001".
Proof.
  destruct (fullid_of_path (lit "data") (lit "eng_NW_abc123_20200101_00000001")
              (lit "txt.gz")
              (not_in_forallb dot (lit "eng_NW_abc123_20200101_00000001")
                 eq_refl)
              (not_in_forallb slash (lit "eng_NW_abc123_20200101_00000001")
                 eq_refl)
              (not_in_forallb slash (lit "txt.gz") eq_refl))
    as [H1 [_ [H3 _]]].
  split; [exact H1 | exact H3].
Defined.

Lemma listed_file_basename_witness :
  basename (join (lit "data") example_file) = example_file
  /\ fullid_of (join (lit "data") example_file)
     = nth 0 (split dot example_file) [].
Proof.
  apply (listed_file_basename (lit "data") example_file).
  - discriminate.
  - apply not_in_forallb. reflexivity.
Defined.

Lemma empty_corpus_witness :
  exists t,
    main nothing debug_args (lit "/tmp/flat2elisa.pyk3v9x2aa") = Some t
    /\ written (sink debug_args) t
       = (lit "/tmp/flat2elisa.pyk3v9x2aa" ++ [nl])
         ++ corpus_output (lit "eng") (lit "fromsource") [].
Proof.
  exact (empty_corpus nothing debug_args (lit "/tmp/flat2elisa.pyk3v9x2aa")
           [] [not_found (lit "nope")] eq_refl eq_refl).
Defined.

Lemma utf8_length_bounds_witness :
  encode_utf8 [0x4E2D; 0x6587] = Some [0xE4; 0xB8; 0xAD; 0xE6; 0x96; 0x87]
  /\ len [0x4E2D; 0x6587] <= 6 <= 4 * len [0x4E2D; 0x6587].
Proof.
  assert (E : encode_utf8 [0x4E2D; 0x6587]
              = Some [0xE4; 0xB8; 0xAD; 0xE6; 0x96; 0x87]) by reflexivity.
  split; [exact E|].
  exact (proj1 (utf8_length_bounds _ _ E)).
Defined.

Lemma segment_ids_distinct_witness :
  exists ej ek,
    nth_error (fst (process_lines (fullid_of example_path) example_path 0 0
                      example_lines false)) 0 = Some ej
    /\ nth_error (fst (process_lines (fullid_of example_path) example_path 0 0
                         example_lines false)) 1 = Some ek
    /\ segment_id ej <> segment_id ek.
Proof.
  destruct (nth_error (fst (process_lines (fullid_of example_path)
                              example_path 0 0 example_lines false)) 0)
    as [ej|] eqn:Ej.
  2:{ vm_compute in Ej. discriminate Ej. }
  destruct (nth_error (fst (process_lines (fullid_of example_path)
                              example_path 0 0 example_lines false)) 1)
    as [ek|] eqn:Ek.
  2:{ vm_compute in Ek. discriminate Ek. }
  exists ej, ek. split; [reflexivity|]. split; [reflexivity|].
  exact (proj1 (proj2 (proj2
           (segment_ids_distinct _ _ _ _ 0 1 ej ek Ej Ek (Nat.neq_0_succ 0))))).
Defined.

Lemma streams_separate_witness :
  exists t,
    main example_fs example_args (lit "/tmp/flat2elisa.pyk3v9x2aa") = Some t
    /\ Forall (fun e => fst e = Stderr -> is_warning (snd e)) t
    /\ written Outfile t = [].
Proof.
  destruct (main example_fs example_args (lit "/tmp/flat2elisa.pyk3v9x2aa"))
    as [t|] eqn:M.
  - exists t. split; [reflexivity|].
    destruct (streams_separate example_fs example_args _ t M) as [H1 [_ H3]].
    split; [exact H1 | exact (H3 eq_refl)].
  - vm_compute in M. discriminate M.
Defined.

(** * What is written, as text *)

Lemma document_text_valid (fs : filesystem) (a : args) (infile : pystr) :
  length (idtoks_of infile) = 5%nat ->
  written (sink a) (document fs a infile)
  = document_text (direction a) (nth 0 (split dot (basename infile)) [])
      (split underscore (nth 0 (split dot (basename infile)) []))
      (map tostring
         (fst (process_lines (nth 0 (split dot (basename infile)) []) infile
                 0 0 (yielded (prepfile_r fs infile))
                 (raises (prepfile_r fs infile))))).
Proof.
  intros H. rewrite written_document. unfold document_output.
  unfold idtoks_of, fullid_of in H. rewrite H. reflexivity.
Qed.

Lemma document_text_closed (d fullid : pystr) (idtoks : list pystr)
    (segments : list pystr) :
  exists before,
    document_text d fullid idtoks segments
    = before ++ concat segments ++ lit "</DOCUMENT>" ++ [nl].
Proof.
  unfold document_text. eexists. rewrite !app_assoc. reflexivity.
Qed.

Lemma written_stderr_problem (fs : filesystem) (a : args) (infile : pystr) :
  length (idtoks_of infile) = 5%nat ->
  snd (process_lines (fullid_of infile) infile 0 0
         (yielded (prepfile_r fs infile)) (raises (prepfile_r fs infile)))
  = true ->
  written Stderr (document fs a infile)
  = infile ++ lit " had a problem." ++ [nl].
Proof.
  intros H5 Hp. rewrite (document_valid fs a infile H5), Hp.
  change (document_open a (fullid_of infile)
            :: map (field a) (combine fullidfields (idtoks_of infile))
            ++ direction_line a
            :: map (fun e => (sink a, tostring e))
                 (fst (process_lines (fullid_of infile) infile 0 0
                         (yielded (prepfile_r fs infile))
                         (raises (prepfile_r fs infile))))
            ++ [had_a_problem infile] ++ [document_close a])
    with ([document_open a (fullid_of infile)]
            ++ map (field a) (combine fullidfields (idtoks_of infile))
            ++ [direction_line a]
            ++ map (fun e => (sink a, tostring e))
                 (fst (process_lines (fullid_of infile) infile 0 0
                         (yielded (prepfile_r fs infile))
                         (raises (prepfile_r fs infile))))
            ++ [had_a_problem infile] ++ [document_close a]).
  rewrite !written_app. unfold field.
  rewrite !(written_other Stderr (sink a)) by apply sink_not_stderr.
  unfold document_open, direction_line, document_close, had_a_problem.
  rewrite !written_cons, !written_nil. cbn [fst snd stream_eqb].
  rewrite !sink_not_stderr. cbn [app]. now rewrite !app_nil_r.
Qed.



(** C8. Input resolution turns the list of paths into the list of input
    files: it succeeds when every path is missing, a regular file or a
    directory; the files are those contributed by each path, in the order of
    the paths; a missing path contributes nothing and costs one line on the
    error stream, which names it and says that it was not found; a regular
    file contributes itself; a directory contributes exactly its entries
    that are regular files, joined to the directory, in listing order, so
    that a subdirectory and what is below it are left out. *)
Theorem input_resolution (fs : filesystem) (entries : list pystr) :
  forallb (resolvable fs) entries = true ->
  exists infilenames warnings,
    resolve fs entries [] [] = Some (infilenames, warnings)
    /\ infilenames = flat_map (contributed fs) entries
    /\ warnings
       = map (fun entry => (Stderr, entry ++ lit " not found; skipping" ++ [nl]))
           (filter (is_missing fs) entries)
    /\ written Stderr warnings
       = concat (map (fun entry => entry ++ lit " not found; skipping" ++ [nl])
                   (filter (is_missing fs) entries))
    /\ Forall (fun f => isfile fs f = true) infilenames
    /\ (forall entry, fs entry = Missing ->
          contributed fs entry = [] /\ is_missing fs entry = true)
    /\ (forall entry r, fs entry = Regular r ->
          contributed fs entry = [entry] /\ is_missing fs entry = false)
    /\ (forall entry names, fs entry = Directory names ->
          contributed fs entry = filter (isfile fs) (map (join entry) names)
          /\ is_missing fs entry = false
          /\ (forall name sub, In name names ->
                fs (join entry name) = Directory sub ->
                ~ In (join entry name) (contributed fs entry))).
Proof.
  intros H. eexists. eexists. split.
  { rewrite resolve_closed_form by exact H. simpl. reflexivity. }
  split; [reflexivity|]. split; [reflexivity|]. split.
  { apply (written_same Stderr
             (fun entry => entry ++ lit " not found; skipping" ++ [nl])). }
  split.
  { apply Forall_forall. intros f Hf. apply in_flat_map in Hf.
    destruct Hf as [e [_ Hf]].
    pose proof (contributed_regular fs e) as HR.
    rewrite Forall_forall in HR. now apply HR. }
  unfold contributed, is_missing, path_exists.
  split; [|split].
  - intros entry E. now rewrite E.
  - intros entry r E. now rewrite E.
  - intros entry names E. rewrite E. split; [reflexivity|].
    split; [reflexivity|].
    intros name sub _ Hsub Hin. apply filter_In in Hin.
    destruct Hin as [_ Hf]. unfold isfile in Hf. now rewrite Hsub in Hf.
Qed.



(** * The unescaped header, seen from the other claims *)

(** C3 at the paths [notes.txt] and [a&b_NW_x_20200101_1.txt]. The first
    file is skipped as the claim says: one line on the error stream, nothing
    on the output, which is that of the run without it. But the output of
    this run is not well-formed: the header of the second file holds an
    ampersand that starts no reference (the defect evaluated for C4). *)
Theorem skipped_file_beside_unescaped_name :
  resolve skip_fs (infiles skip_args) [] []
  = Some ([lit "notes.txt"; amp_file], [])
  /\ document skip_fs skip_args (lit "notes.txt")
     = [(Stderr,
         lit "notes.txt is not in proper naming convention; skipping" ++ [nl])]
  /\ option_map (written Stderr) (main skip_fs skip_args (lit "/tmp/w"))
     = Some (lit "notes.txt is not in proper naming convention; skipping"
               ++ [nl])
  /\ option_map (written Stdout) (main skip_fs skip_args (lit "/tmp/w"))
     = option_map (written Stdout) (main amp_fs plain_args (lit "/tmp/w"))
  /\ option_map (fun t => nth_error t 4) (main skip_fs skip_args (lit "/tmp/w"))
     = Some (Some (Stdout,
                   lit "<DOCUMENT id=" ++ dquote :: lit "a&b_NW_x_20200101_1"
                     ++ dquote :: lit ">" ++ [nl]))
  /\ option_map (fun t => references_closed (written Stdout t))
       (main skip_fs skip_args (lit "/tmp/w"))
     = Some false.
Proof. repeat split; vm_compute; reflexivity. Qed.

(** C7 at the file [a&b_NW_x_20200101_1.txt]. What is written for the
    header is not a [DOCUMENT] element whose [id] is the DocumentId, nor a
    [SOURCE_LANGUAGE] element that holds the first token: in both lines the
    ampersand starts no reference, and a parser that went on would not read
    the DocumentId back from the attribute. The segment, which lxml
    serialises, has all its references closed (the defect evaluated for
    C4). *)
Theorem header_is_not_an_element :
  length (idtoks_of amp_file) = 5%nat
  /\ starts_with
       ((lit "<DOCUMENT id=" ++ dquote :: lit "a&b_NW_x_20200101_1"
           ++ dquote :: lit ">" ++ [nl])
        ++ lit "  <SOURCE_LANGUAGE>a&b</SOURCE_LANGUAGE>" ++ [nl])
       (written Stdout (document amp_fs plain_args amp_file)) = true
  /\ references_closed
       (lit "<DOCUMENT id=" ++ dquote :: lit "a&b_NW_x_20200101_1"
          ++ dquote :: lit ">" ++ [nl]) = false
  /\ references_closed (lit "  <SOURCE_LANGUAGE>a&b</SOURCE_LANGUAGE>" ++ [nl])
     = false
  /\ pystr_eqb (unescape_attr (lit "a&b_NW_x_20200101_1"))
       (lit "a&b_NW_x_20200101_1") = false
  /\ pystr_eqb (unescape_text (lit "a&b")) (lit "a&b") = false
  /\ map (fun e => references_closed (tostring e))
       (fst (process_lines (fullid_of amp_file) amp_file 0 0
               (yielded (prepfile_r amp_fs amp_file))
               (raises (prepfile_r amp_fs amp_file))))
     = [true]
  /\ references_closed (written Stdout (document amp_fs plain_args amp_file))
     = false.
Proof. repeat split; vm_compute; reflexivity. Qed.

(** * Further properties, as text *)

(** X5. A line that lxml refuses ends the loop: if line [k] of a file whose
    name has five tokens is one, at most [k] segments are in the output for
    that file, the error stream receives the line that names the file, and
    the output for the file still ends with the closing of [DOCUMENT]. *)
Theorem refused_line_stops_file (fs : filesystem) (a : args) (infile : pystr)
    (k : nat) (raw : pystr) :
  length (idtoks_of infile) = 5%nat ->
  nth_error (yielded (prepfile_r fs infile)) k = Some raw ->
  xml_compatible (strip raw) = false ->
  let fullid := nth 0 (split dot (basename infile)) [] in
  let done :=
    fst (process_lines fullid infile 0 0 (yielded (prepfile_r fs infile))
           (raises (prepfile_r fs infile))) in
  (length done <= k)%nat
  /\ written Stderr (document fs a infile)
     = infile ++ lit " had a problem." ++ [nl]
  /\ written (sink a) (document fs a infile)
     = document_text (direction a) fullid (split underscore fullid)
         (map tostring done)
  /\ exists before,
       written (sink a) (document fs a infile)
       = before ++ concat (map tostring done) ++ lit "</DOCUMENT>" ++ [nl].
Proof.
  intros H5 Hn Hx fullid done.
  destruct (process_lines_stops fullid infile
              (yielded (prepfile_r fs infile)) 0 0
              (raises (prepfile_r fs infile)) k raw Hn Hx) as [Hl Hp].
  pose proof (document_text_valid fs a infile H5) as Wo.
  fold fullid in Wo. fold done in Wo.
  split; [exact Hl|].
  split; [exact (written_stderr_problem fs a infile H5 Hp)|].
  split; [exact Wo|].
  rewrite Wo. apply document_text_closed.
Qed.

(** X7. The offsets that the segments of one file carry: the segment of
    line [k] starts at [k] plus the number of code points of the stripped
    lines before it, it ends no lower than one before its start, and an
    earlier segment ends at least two positions before a later one
    starts. *)
Theorem segment_ranges_ordered (fullid infile : pystr) (lines : list pystr)
    (raised : bool) (j k : nat) (ej ek : element) :
  nth_error (fst (process_lines fullid infile 0 0 lines raised)) j = Some ej ->
  nth_error (fst (process_lines fullid infile 0 0 lines raised)) k = Some ek ->
  (j < k)%nat ->
  exists sj tj sk tk,
    char_range ej = Some (str_int sj, str_int tj)
    /\ char_range ek = Some (str_int sk, str_int tk)
    /\ sk = Z.of_nat k + total_len (firstn k lines)
    /\ sj - 1 <= tj
    /\ sk - 1 <= tk
    /\ tj + 2 <= sk.
Proof.
  intros Hj Hk Hlt.
  apply process_lines_nth in Hj, Hk.
  destruct Hj as [rj [Nj Sj]]. destruct Hk as [rk [Nk Sk]].
  apply segment_inv in Sj, Sk.
  destruct Sj as [bj [_ [-> _]]]. destruct Sk as [bk [_ [-> _]]].
  fold (cursor lines j). fold (cursor lines k).
  exists (cursor lines j), (cursor lines j + len (strip rj) - 1),
    (cursor lines k), (cursor lines k + len (strip rk) - 1).
  split; [apply char_range_segment_tree|].
  split; [apply char_range_segment_tree|].
  assert (Lk : (k < length lines)%nat)
    by (apply nth_error_Some; rewrite Nk; discriminate).
  split.
  { unfold cursor. rewrite fold_advance, length_firstn.
    rewrite Nat.min_l by lia. lia. }
  split; [unfold len; lia|]. split; [unfold len; lia|].
  rewrite <- (cursor_next lines j rj Nj). apply cursor_mono. lia.
Qed.

(** X14. A path that exists and that [os.listdir] raises on, being neither
    a regular file nor a directory that can be listed, ends the run: the
    exception is caught nowhere. *)
Theorem unlistable_path_aborts (fs : filesystem) (a : args) (workdir : pystr)
    (entry : pystr) :
  In entry (infiles a) ->
  fs entry = Special ->
  main fs a workdir = None.
Proof.
  intros Hin Hs. unfold main.
  rewrite (proj2 (resolve_none_iff fs (infiles a))); [reflexivity|].
  now exists entry.
Qed.

(** X20. The text written for a file whose name has five tokens, in full:
    the line that opens [DOCUMENT] with the DocumentId, as it is, for [id];
    the five lines of the fields [SOURCE_LANGUAGE], [GENRE], [PROVENANCE],
    [DATE], [INDEX_ID], each around its token as it is; the line of
    [DIRECTION]; the segments, in line order; the closing of [DOCUMENT].
    The segment of line [k] is a [SEGMENT] whose [SOURCE] has the attributes
    [id] (DocumentId, a dot, [k]), [start_char], [end_char] in decimal, and
    the children [FULL_ID_SOURCE], [ORIG_SEG_ID] (segment-[k]),
    [ORIG_FILENAME] (the basename), [MD5_HASH_SOURCE], [ORIG_RAW_SOURCE],
    and it is serialised with them in that order. *)
Theorem document_text_written (fs : filesystem) (a : args) (infile : pystr) :
  length (idtoks_of infile) = 5%nat ->
  let fullid := nth 0 (split dot (basename infile)) [] in
  let lines := yielded (prepfile_r fs infile) in
  let done :=
    fst (process_lines fullid infile 0 0 lines
           (raises (prepfile_r fs infile))) in
  exists t1 t2 t3 t4 t5,
    split underscore fullid = [t1; t2; t3; t4; t5]
    /\ written (sink a) (document fs a infile)
       = (lit "<DOCUMENT id=" ++ [dquote] ++ fullid ++ [dquote] ++ lit ">"
            ++ [nl])
         ++ (lit "  <SOURCE_LANGUAGE>" ++ t1 ++ lit "</SOURCE_LANGUAGE>"
               ++ [nl])
         ++ (lit "  <GENRE>" ++ t2 ++ lit "</GENRE>" ++ [nl])
         ++ (lit "  <PROVENANCE>" ++ t3 ++ lit "</PROVENANCE>" ++ [nl])
         ++ (lit "  <DATE>" ++ t4 ++ lit "</DATE>" ++ [nl])
         ++ (lit "  <INDEX_ID>" ++ t5 ++ lit "</INDEX_ID>" ++ [nl])
         ++ (lit "  <DIRECTION>" ++ direction a ++ lit "</DIRECTION>" ++ [nl])
         ++ concat (map tostring done)
         ++ (lit "</DOCUMENT>" ++ [nl])
    /\ (forall k e,
          nth_error done k = Some e ->
          exists raw bytes,
            nth_error lines k = Some raw
            /\ encode_utf8 (strip raw) = Some bytes
            /\ e = segment_tree fullid infile k (strip raw) (cursor lines k)
                     (cursor lines k + len (strip raw) - 1)
                     (MD5.hexdigest bytes)
            /\ tostring e
               = segment_text fullid infile k (strip raw) (cursor lines k)
                   (cursor lines k + len (strip raw) - 1)
                   (MD5.hexdigest bytes)).
Proof.
  intros H fullid lines done.
  destruct (length_five _ H) as [t1 [t2 [t3 [t4 [t5 Ht]]]]].
  unfold idtoks_of, fullid_of in Ht. fold fullid in Ht.
  exists t1, t2, t3, t4, t5. split; [exact Ht|]. split.
  - rewrite (document_text_valid fs a infile H). fold fullid. fold lines.
    fold done. unfold document_text. rewrite Ht.
    cbn [combine map concat fst snd].
    generalize (concat (map tostring done)). intros segs.
    rewrite app_nil_r.
    change (lit "  <") with [32; 32; 60].
    change (lit "</") with [60; 47].
    change (lit ">") with [62].
    repeat (rewrite <- ?app_assoc; cbn [app]).
    reflexivity.
  - intros k e Hk.
    destruct (process_lines_nth fullid infile lines 0 0
                (raises (prepfile_r fs infile)) k e Hk) as [raw [Hn Hs]].
    apply segment_inv in Hs. destruct Hs as [bytes [Hb [He _]]].
    exists raw, bytes. simpl in He. fold (cursor lines k) in He.
    repeat split; try assumption.
    rewrite He. apply tostring_segment_tree, unreserved_hexdigest.
Qed.

(** X21. The DocumentId is the basename up to its first dot and holds no
    dot; its tokens are what lies between its underscores, one more than
    there are underscores. A file is skipped exactly when there are not five
    tokens: then all that is written is the line on the error stream that
    names the file and says that it is not in proper naming convention,
    nothing at all reaches the output, and the output of the run is what it
    would be without that file. With five tokens the output for the file
    starts with the line that opens [DOCUMENT]. *)
Theorem malformed_name_skipped (fs : filesystem) (a : args) (infile : pystr) :
  let fullid := nth 0 (split dot (basename infile)) [] in
  let idtoks := split underscore fullid in
  (~ In dot fullid
   /\ (basename infile = fullid
       \/ exists ext, basename infile = fullid ++ dot :: ext))
  /\ length idtoks = S (count_occ Z.eq_dec fullid underscore)
  /\ (length idtoks <> 5%nat
      <-> document fs a infile
          = [(Stderr,
              infile ++ lit " is not in proper naming convention; skipping"
                ++ [nl])])
  /\ (length idtoks <> 5%nat ->
      written Stderr (document fs a infile)
      = infile ++ lit " is not in proper naming convention; skipping" ++ [nl]
      /\ written (sink a) (document fs a infile) = []
      /\ forall before after,
           written (sink a) (documents fs a (before ++ infile :: after))
           = written (sink a) (documents fs a (before ++ after))
           /\ written Stderr (documents fs a (before ++ infile :: after))
              = written Stderr (documents fs a before)
                  ++ (infile
                        ++ lit " is not in proper naming convention; skipping"
                        ++ [nl])
                  ++ written Stderr (documents fs a after))
  /\ (length idtoks = 5%nat ->
      exists rest,
        written (sink a) (document fs a infile)
        = (lit "<DOCUMENT id=" ++ dquote :: fullid ++ dquote :: lit ">"
             ++ [nl]) ++ rest).
Proof.
  intros fullid idtoks.
  split; [apply split_head|].
  split; [apply split_length|].
  split; [|split].
  - split; [apply document_invalid|].
    intros D E. rewrite (document_valid fs a infile E) in D.
    apply (f_equal (@length event)) in D. cbn [length] in D.
    rewrite length_app in D. cbn [length] in D. lia.
  - intros H. pose proof (document_invalid fs a infile H) as D.
    assert (We : written Stderr (document fs a infile)
                 = infile
                     ++ lit " is not in proper naming convention; skipping"
                     ++ [nl]).
    { rewrite D, written_cons, written_nil. simpl. now rewrite app_nil_r. }
    assert (Wo : written (sink a) (document fs a infile) = []).
    { rewrite D. apply written_sink_bad_name. }
    split; [exact We|]. split; [exact Wo|].
    intros before after.
    rewrite !documents_app. simpl documents.
    rewrite !written_app, Wo, We. now split.
  - intros E. rewrite (document_text_valid fs a infile E).
    unfold document_text. fold fullid. eexists. reflexivity.
Qed.

(** * Instances of the properties on text *)


Lemma input_resolution_witness :
  forallb (resolvable example_fs) (infiles example_args) = true
  /\ resolve example_fs (infiles example_args) [] []
     = Some ([example_path; example_path],
             [(Stderr, lit "nope not found; skipping" ++ [nl])]).
Proof.
  assert (R : forallb (resolvable example_fs) (infiles example_args) = true)
    by (vm_compute; reflexivity).
  split; [exact R|].
  destruct (input_resolution example_fs (infiles example_args) R)
    as [l [w [Hr [Hl [Hw _]]]]].
  rewrite Hr, Hl, Hw. vm_compute. reflexivity.
Defined.



Lemma refused_line_stops_file_witness :
  length (idtoks_of example_path) = 5%nat
  /\ nth_error (yielded (prepfile_r control_fs example_path)) 1 = Some [1; nl]
  /\ xml_compatible (strip [1; nl]) = false
  /\ (length (fst (process_lines (nth 0 (split dot (basename example_path)) [])
                     example_path 0 0
                     (yielded (prepfile_r control_fs example_path))
                     (raises (prepfile_r control_fs example_path)))) <= 1)%nat
  /\ written Stderr (document control_fs example_args example_path)
     = example_path ++ lit " had a problem." ++ [nl].
Proof.
  assert (H5 : length (idtoks_of example_path) = 5%nat)
    by (vm_compute; reflexivity).
  assert (Hn : nth_error (yielded (prepfile_r control_fs example_path)) 1
               = Some [1; nl]) by (vm_compute; reflexivity).
  assert (Hx : xml_compatible (strip [1; nl]) = false)
    by (vm_compute; reflexivity).
  split; [exact H5|]. split; [exact Hn|]. split; [exact Hx|].
  destruct (refused_line_stops_file control_fs example_args example_path 1
              [1; nl] H5 Hn Hx) as [Hl [Hw _]].
  split; [exact Hl | exact Hw].
Defined.

Lemma segment_ranges_ordered_witness :
  exists ej ek sj tj sk tk,
    nth_error (fst (process_lines (fullid_of example_path) example_path 0 0
                      example_lines false)) 0 = Some ej
    /\ nth_error (fst (process_lines (fullid_of example_path) example_path 0 0
                         example_lines false)) 1 = Some ek
    /\ char_range ej = Some (str_int sj, str_int tj)
    /\ char_range ek = Some (str_int sk, str_int tk)
    /\ tj + 2 <= sk.
Proof.
  destruct (nth_error (fst (process_lines (fullid_of example_path)
                              example_path 0 0 example_lines false)) 0)
    as [ej|] eqn:Ej.
  2:{ vm_compute in Ej. discriminate Ej. }
  destruct (nth_error (fst (process_lines (fullid_of example_path)
                              example_path 0 0 example_lines false)) 1)
    as [ek|] eqn:Ek.
  2:{ vm_compute in Ek. discriminate Ek. }
  destruct (segment_ranges_ordered _ _ _ _ 0 1 ej ek Ej Ek (Nat.lt_0_succ 0))
    as [sj [tj [sk [tk [Hj [Hk [_ [_ [_ Ho]]]]]]]]].
  exists ej, ek, sj, tj, sk, tk. repeat split; assumption.
Defined.

Lemma unlistable_path_aborts_witness :
  In (lit "/dev/null") (infiles device_args)
  /\ device_fs (lit "/dev/null") = Special
  /\ main device_fs device_args (lit "/tmp/w") = None.
Proof.
  assert (Hin : In (lit "/dev/null") (infiles device_args))
    by (right; left; reflexivity).
  assert (Hs : device_fs (lit "/dev/null") = Special) by reflexivity.
  split; [exact Hin|]. split; [exact Hs|].
  exact (unlistable_path_aborts device_fs device_args (lit "/tmp/w")
           (lit "/dev/null") Hin Hs).
Defined.

Lemma document_text_written_witness :
  length (idtoks_of example_path) = 5%nat
  /\ exists t1 t2 t3 t4 t5,
       split underscore (nth 0 (split dot (basename example_path)) [])
       = [t1; t2; t3; t4; t5]
       /\ written (sink example_args)
            (document example_fs example_args example_path)
          = (lit "<DOCUMENT id=" ++ [dquote]
               ++ nth 0 (split dot (basename example_path)) [] ++ [dquote]
               ++ lit ">" ++ [nl])
            ++ (lit "  <SOURCE_LANGUAGE>" ++ t1 ++ lit "</SOURCE_LANGUAGE>"
                  ++ [nl])
            ++ (lit "  <GENRE>" ++ t2 ++ lit "</GENRE>" ++ [nl])
            ++ (lit "  <PROVENANCE>" ++ t3 ++ lit "</PROVENANCE>" ++ [nl])
            ++ (lit "  <DATE>" ++ t4 ++ lit "</DATE>" ++ [nl])
            ++ (lit "  <INDEX_ID>" ++ t5 ++ lit "</INDEX_ID>" ++ [nl])
            ++ (lit "  <DIRECTION>" ++ direction example_args
                  ++ lit "</DIRECTION>" ++ [nl])
            ++ concat (map tostring
                         (fst (process_lines
                                 (nth 0 (split dot (basename example_path)) [])
                                 example_path 0 0
                                 (yielded (prepfile_r example_fs example_path))
                                 (raises (prepfile_r example_fs example_path)))))
            ++ (lit "</DOCUMENT>" ++ [nl]).
Proof.
  assert (H5 : length (idtoks_of example_path) = 5%nat)
    by (vm_compute; reflexivity).
  split; [exact H5|].
  destruct (document_text_written example_fs example_args example_path H5)
    as [t1 [t2 [t3 [t4 [t5 [Ht [Hw _]]]]]]].
  exists t1, t2, t3, t4, t5. split; [exact Ht | exact Hw].
Defined.

Lemma malformed_name_skipped_witness :
  length (split underscore (nth 0 (split dot (basename (lit "data/notes.txt")))
                              [])) <> 5%nat
  /\ written (sink example_args)
       (document example_fs example_args (lit "data/notes.txt")) = []
  /\ written Stderr (document example_fs example_args (lit "data/notes.txt"))
     = lit "data/notes.txt is not in proper naming convention; skipping"
         ++ [nl].
Proof.
  assert (N : length (split underscore
                        (nth 0 (split dot (basename (lit "data/notes.txt")))
                           [])) <> 5%nat)
    by (vm_compute; intros H; discriminate H).
  split; [exact N|].
  destruct (proj1 (proj2 (proj2 (proj2
             (malformed_name_skipped example_fs example_args
                (lit "data/notes.txt"))))) N) as [We [Wo _]].
  split; [exact Wo | exact We].
Defined.
